(** * Collection types of the provider framework: List, Map and Set

    A shallow embedding of [types/basetypes/list_type.go],
    [types/basetypes/map_type.go], [types/basetypes/set_type.go] and
    [internal/fromproto5/planresourcechange.go], and the properties of
    the type layer proved over it. *)

From Stdlib Require Import ZArith.
From stdpp Require Import gmap strings list fin_maps.

Set Default Proof Using "Type".
Set Warnings "-register-all".

(** ** Go results

    A Go call either returns normally, returns a non-nil [error], or
    panics (here: a method call on a nil [attr.Type] interface value). *)

Definition error := string.

Inductive result (A : Type) : Type :=
| Ok (a : A)
| Err (e : error)
| Panic.

Arguments Ok {A} a.
Arguments Err {A} e.
Arguments Panic {A}.

#[global] Instance result_ret : MRet result := fun A a => Ok a.

#[global] Instance result_bind : MBind result := fun A B k r =>
  match r with
  | Ok a => k a
  | Err e => Err e
  | Panic => Panic
  end.

Definition newline : string := String (Ascii.ascii_of_nat 10) EmptyString.

(** ** The wire representation (package tftypes of terraform-plugin-go)

    The wire types are the ones the collection code builds and tests:
    the primitives and the three collection kinds.  A collection wire
    type written without its element type ([tftypes.List{}]) has
    [ElementType] nil. *)

Module tftypes.

Inductive Type_ : Type :=
| String
| Number
| Bool
| DynamicPseudoType
| List (ElementType : option Type_)
| Map (ElementType : option Type_)
| Set_ (ElementType : option Type_).

(** [t.Equal(o)]: the same kind and, recursively, the same element
    type; a collection wire type without its element type equals
    nothing. *)
Fixpoint Equal (t o : Type_) {struct t} : bool :=
  let elem (a b : option Type_) :=
    match a, b with
    | Some a', Some b' => Equal a' b'
    | _, _ => false
    end in
  match t, o with
  | String, String | Number, Number | Bool, Bool
  | DynamicPseudoType, DynamicPseudoType => true
  | List a, List b | Map a, Map b | Set_ a, Set_ b => elem a b
  | _, _ => false
  end.

(** The kind checks [t.Is(tftypes.List{})], [t.Is(tftypes.Map{})] and
    [t.Is(tftypes.Set{})], which ignore the element type. *)
Definition IsList (t : Type_) : bool :=
  match t with List _ => true | _ => false end.
Definition IsMap (t : Type_) : bool :=
  match t with Map _ => true | _ => false end.
Definition IsSet (t : Type_) : bool :=
  match t with Set_ _ => true | _ => false end.

Fixpoint TypeString (t : Type_) : string :=
  let elem (a : option Type_) :=
    match a with Some a' => TypeString a' | None => "<nil>" end in
  match t with
  | String => "tftypes.String"
  | Number => "tftypes.Number"
  | Bool => "tftypes.Bool"
  | DynamicPseudoType => "tftypes.DynamicPseudoType"
  | List a => "tftypes.List[" +:+ elem a +:+ "]"
  | Map a => "tftypes.Map[" +:+ elem a +:+ "]"
  | Set_ a => "tftypes.Set[" +:+ elem a +:+ "]"
  end.

(** The steps of a wire attribute path. *)
Inductive AttributePathStep (V : Type) : Type :=
| AttributeName (name : string)
| ElementKeyString (key : string)
| ElementKeyInt (index : Z)
| ElementKeyValue (v : V).

Arguments AttributeName {V} name.
Arguments ElementKeyString {V} key.
Arguments ElementKeyInt {V} index.
Arguments ElementKeyValue {V} v.

(** What [%T] prints for a step; a nil step prints as [<nil>]. *)
Definition StepGoType {V : Type} (step : option (AttributePathStep V)) : string :=
  match step with
  | None => "<nil>"
  | Some (AttributeName _) => "tftypes.AttributeName"
  | Some (ElementKeyString _) => "tftypes.ElementKeyString"
  | Some (ElementKeyInt _) => "tftypes.ElementKeyInt"
  | Some (ElementKeyValue _) => "tftypes.ElementKeyValue"
  end.

(** The methods of [tftypes.Value] that the collection types call.
    [AsSlice] is [in.As(&val)] for [val : []tftypes.Value] and [AsMap]
    the same for [val : map[string]tftypes.Value].  The two laws are
    the documented relation of the determinacy tests: a null value is
    known, and a fully known value is known. *)
Class Value (V : Type) : Type := {
  Type' : V -> option Type_;
  IsKnown : V -> bool;
  IsNull : V -> bool;
  IsFullyKnown : V -> bool;
  AsSlice : V -> result (list V);
  AsMap : V -> result (gmap string V);
  ValueEqual : V -> V -> bool;
  ValueString : V -> string;
  IsNull_IsKnown : forall v, IsNull v = true -> IsKnown v = true;
  IsFullyKnown_IsKnown : forall v, IsFullyKnown v = true -> IsKnown v = true
}.

End tftypes.

(** ** attr.Type and attr.Value

    [attr.Type] is an open interface.  The three collection types are
    its implementations in this package; [OtherType] stands for every
    other implementation, [O] being the type of those.  A struct field
    of interface type can be nil, hence [option]. *)

Module attr.

Inductive Type_ (O : Type) : Type :=
| ListType (ElemType : option (Type_ O))
| MapType (ElemType : option (Type_ O))
| SetType (ElemType : option (Type_ O))
| OtherType (o : O).

Arguments ListType {O} ElemType.
Arguments MapType {O} ElemType.
Arguments SetType {O} ElemType.
Arguments OtherType {O} o.

Inductive state : Type := StateNull | StateUnknown | StateKnown.

Inductive Value (O OV : Type) : Type :=
| ListValue (elementType : option (Type_ O)) (elements : list (Value O OV)) (st : state)
| MapValue (elementType : option (Type_ O)) (elements : gmap string (Value O OV)) (st : state)
| SetValue (elementType : option (Type_ O)) (elements : list (Value O OV)) (st : state)
| OtherValue (v : OV).

Arguments ListValue {O OV} elementType elements st.
Arguments MapValue {O OV} elementType elements st.
Arguments SetValue {O OV} elementType elements st.
Arguments OtherValue {O OV} v.

End attr.

(** ** Attribute paths and diagnostics *)

Module path.

(** Modelled from the spec: package [path] is not part of the sources
    at hand.  A path is a sequence of steps, and each collection shape
    extends a path by one more step: an index, a key, or an element
    value. *)
Inductive PathStep (O OV : Type) : Type :=
| PathStepAttributeName (name : string)
| PathStepElementKeyInt (index : Z)
| PathStepElementKeyString (key : string)
| PathStepElementKeyValue (v : attr.Value O OV).

Arguments PathStepAttributeName {O OV} name.
Arguments PathStepElementKeyInt {O OV} index.
Arguments PathStepElementKeyString {O OV} key.
Arguments PathStepElementKeyValue {O OV} v.

Definition Path (O OV : Type) : Type := list (PathStep O OV).

Definition Root {O OV : Type} (name : string) : Path O OV :=
  [PathStepAttributeName name].
Definition AtListIndex {O OV : Type} (p : Path O OV) (index : Z) : Path O OV :=
  p ++ [PathStepElementKeyInt index].
Definition AtMapKey {O OV : Type} (p : Path O OV) (key : string) : Path O OV :=
  p ++ [PathStepElementKeyString key].
Definition AtSetValue {O OV : Type} (p : Path O OV) (v : attr.Value O OV) : Path O OV :=
  p ++ [PathStepElementKeyValue v].

End path.

Module diag.

Inductive Severity : Type := SeverityError | SeverityWarning.

(** Modelled from the spec: package [diag] is not part of the sources
    at hand.  The diagnostics collection is a sink that accepts
    structured error records and accumulates them.  The spec does not
    say what the sink does with a record equal to one it already holds;
    here every record is kept, in the order of arrival, and the
    properties below that bear on records made by [AddAttributeError]
    are stated by membership, which holds as well of a sink that drops
    such a record. *)
Record Diagnostic (O OV : Type) : Type := NewDiagnostic {
  severity : Severity;
  attribute : option (path.Path O OV);
  summary : string;
  detail : string
}.

Arguments NewDiagnostic {O OV} severity attribute summary detail.
Arguments severity {O OV} _.
Arguments attribute {O OV} _.
Arguments summary {O OV} _.
Arguments detail {O OV} _.

Definition Diagnostics (O OV : Type) : Type := list (Diagnostic O OV).

Definition NewAttributeErrorDiagnostic {O OV : Type}
    (p : path.Path O OV) (summary detail : string) : Diagnostic O OV :=
  NewDiagnostic SeverityError (Some p) summary detail.

Definition NewErrorDiagnostic {O OV : Type} (summary detail : string) : Diagnostic O OV :=
  NewDiagnostic SeverityError None summary detail.

Definition AddAttributeError {O OV : Type} (diags : Diagnostics O OV)
    (p : path.Path O OV) (summary detail : string) : Diagnostics O OV :=
  diags ++ [NewAttributeErrorDiagnostic p summary detail].

Definition AddError {O OV : Type} (diags : Diagnostics O OV)
    (summary detail : string) : Diagnostics O OV :=
  diags ++ [NewErrorDiagnostic summary detail].

End diag.

(** ** The element-type contract

    What the collection types ask of an element type that is not one of
    their own: its wire type, its conversion, its equality, its name,
    what [%T] prints for it, its own path step, and the optional capability
    [xattr.TypeWithValidate] ([None] when the type has no [Validate]
    method). *)

Class ElementType (V O OV : Type) : Type := {
  OtherTerraformType : O -> tftypes.Type_;
  OtherValueFromTerraform : O -> V -> result (attr.Value O OV);
  OtherEqual : O -> option (attr.Type_ O) -> bool;
  OtherString : O -> string;
  OtherGoType : O -> string;
  OtherApplyTerraform5AttributePathStep :
    O -> option (tftypes.AttributePathStep V) -> result (option (attr.Type_ O));
  OtherValidate : O -> option (V -> path.Path O OV -> diag.Diagnostics O OV)
}.

(** ** Package basetypes: ListType, MapType, SetType *)

Module basetypes.
Section Types.

Context {V O OV : Type} `{!tftypes.Value V} `{!ElementType V O OV}.

Abbreviation Type_ := (attr.Type_ O).
Abbreviation Value := (attr.Value O OV).
Abbreviation Path := (path.Path O OV).
Abbreviation Diagnostics := (diag.Diagnostics O OV).

(** Modelled from the spec: the value constructors of [list_value.go],
    [map_value.go] and [set_value.go] are not part of the sources at
    hand.  A value is one of Known(elements), Null or Unknown; a value
    that is not Known carries no elements, and the known-elements
    constructor builds a Known value from the given elements. *)
Definition NewListNull (elementType : option Type_) : Value :=
  attr.ListValue elementType [] attr.StateNull.
Definition NewListUnknown (elementType : option Type_) : Value :=
  attr.ListValue elementType [] attr.StateUnknown.
Definition NewListValueMust (elementType : option Type_) (elements : list Value) : Value :=
  attr.ListValue elementType elements attr.StateKnown.

Definition NewMapNull (elementType : option Type_) : Value :=
  attr.MapValue elementType ∅ attr.StateNull.
Definition NewMapUnknown (elementType : option Type_) : Value :=
  attr.MapValue elementType ∅ attr.StateUnknown.
Definition NewMapValueMust (elementType : option Type_) (elements : gmap string Value) : Value :=
  attr.MapValue elementType elements attr.StateKnown.

Definition NewSetNull (elementType : option Type_) : Value :=
  attr.SetValue elementType [] attr.StateNull.
Definition NewSetUnknown (elementType : option Type_) : Value :=
  attr.SetValue elementType [] attr.StateUnknown.
Definition NewSetValueMust (elementType : option Type_) (elements : list Value) : Value :=
  attr.SetValue elementType elements attr.StateKnown.

(** [TerraformType]: the collection wire type around the element's
    wire type.  The method call on a nil [ElemType] panics. *)
Fixpoint TerraformType (t : Type_) : result tftypes.Type_ :=
  let elem (E : option Type_) : result tftypes.Type_ :=
    match E with
    | None => Panic
    | Some e => TerraformType e
    end in
  match t with
  | attr.ListType E => et ← elem E; Ok (tftypes.List (Some et))
  | attr.MapType E => et ← elem E; Ok (tftypes.Map (Some et))
  | attr.SetType E => et ← elem E; Ok (tftypes.Set_ (Some et))
  | attr.OtherType o => Ok (OtherTerraformType o)
  end.

(** What [%T] prints for an element type. *)
Definition GoType (E : option Type_) : string :=
  match E with
  | None => "<nil>"
  | Some (attr.ListType _) => "basetypes.ListType"
  | Some (attr.MapType _) => "basetypes.MapType"
  | Some (attr.SetType _) => "basetypes.SetType"
  | Some (attr.OtherType o) => OtherGoType o
  end.

(** The error of a wire type that does not match:
    [fmt.Errorf("can't use %s as value of <Shape> with ElementType %T, can only use %s values", ...)]. *)
Definition mismatch (shape : string) (inp : V) (E : option Type_) (et : tftypes.Type_) : error :=
  "can't use " +:+ tftypes.ValueString inp +:+ " as value of " +:+ shape
    +:+ " with ElementType " +:+ GoType E +:+ ", can only use "
    +:+ tftypes.TypeString et +:+ " values".

(** The loop of [ListType.ValueFromTerraform] and
    [SetType.ValueFromTerraform]: convert each child in order, append
    it to [elems], return at the first error. *)
Fixpoint convertElems (conv : V -> result Value) (val : list V) (elems : list Value)
    : result (list Value) :=
  match val with
  | [] => Ok elems
  | elem :: rest =>
      av ← conv elem;
      convertElems conv rest (elems ++ [av])
  end.

(** The loop of [MapType.ValueFromTerraform]: [elems[key] = av] for
    each entry.  Go leaves the order of a map range unspecified; the
    entries are taken here in the order [map_to_list] lists them. *)
Fixpoint convertEntries (conv : V -> result Value) (val : list (string * V))
    (elems : gmap string Value) : result (gmap string Value) :=
  match val with
  | [] => Ok elems
  | (key, elem) :: rest =>
      av ← conv elem;
      convertEntries conv rest (<[key := av]> elems)
  end.

Fixpoint ValueFromTerraform (t : Type_) (inp : V) {struct t} : result Value :=
  let elemTerraformType (E : option Type_) : result tftypes.Type_ :=
    match E with
    | None => Panic
    | Some e => TerraformType e
    end in
  let elemValueFromTerraform (E : option Type_) (elem : V) : result Value :=
    match E with
    | None => Panic
    | Some e => ValueFromTerraform e elem
    end in
  match t with
  | attr.ListType E =>
      match tftypes.Type' inp with
      | None => Ok (NewListNull E)
      | Some ty =>
          tt ← TerraformType (attr.ListType E);
          if negb (tftypes.Equal ty tt) then
            et ← elemTerraformType E; Err (mismatch "List" inp E et)
          else if negb (tftypes.IsKnown inp) then Ok (NewListUnknown E)
          else if tftypes.IsNull inp then Ok (NewListNull E)
          else
            val ← tftypes.AsSlice inp;
            elems ← convertElems (elemValueFromTerraform E) val [];
            Ok (NewListValueMust E elems)
      end
  | attr.MapType E =>
      match tftypes.Type' inp with
      | None => Ok (NewMapNull E)
      | Some ty =>
          if negb (tftypes.IsMap ty) then
            Err ("can't use " +:+ tftypes.ValueString inp
                   +:+ " as value of MapValue, can only use tftypes.Map values")
          else
            et ← elemTerraformType E;
            if negb (tftypes.Equal ty (tftypes.Map (Some et))) then
              Err (mismatch "Map" inp E et)
            else if negb (tftypes.IsKnown inp) then Ok (NewMapUnknown E)
            else if tftypes.IsNull inp then Ok (NewMapNull E)
            else
              val ← tftypes.AsMap inp;
              elems ← convertEntries (elemValueFromTerraform E) (map_to_list val) ∅;
              Ok (NewMapValueMust E elems)
      end
  | attr.SetType E =>
      match tftypes.Type' inp with
      | None => Ok (NewSetNull E)
      | Some ty =>
          tt ← TerraformType (attr.SetType E);
          if negb (tftypes.Equal ty tt) then
            et ← elemTerraformType E; Err (mismatch "Set" inp E et)
          else if negb (tftypes.IsKnown inp) then Ok (NewSetUnknown E)
          else if tftypes.IsNull inp then Ok (NewSetNull E)
          else
            val ← tftypes.AsSlice inp;
            elems ← convertElems (elemValueFromTerraform E) val [];
            Ok (NewSetValueMust E elems)
      end
  | attr.OtherType o => OtherValueFromTerraform o inp
  end.

(** [Equal]: false on a nil [ElemType]; false unless [o] is of the
    same shape (the type assertion); otherwise the element types'
    [Equal].  [o] and the other's [ElemType] may be nil. *)
Fixpoint Equal (t : Type_) (o : option Type_) {struct t} : bool :=
  match t with
  | attr.ListType E =>
      match E with
      | None => false
      | Some e =>
          match o with
          | Some (attr.ListType otherElemType) => Equal e otherElemType
          | _ => false
          end
      end
  | attr.MapType E =>
      match E with
      | None => false
      | Some e =>
          match o with
          | Some (attr.MapType otherElemType) => Equal e otherElemType
          | _ => false
          end
      end
  | attr.SetType E =>
      match E with
      | None => false
      | Some e =>
          match o with
          | Some (attr.SetType otherElemType) => Equal e otherElemType
          | _ => false
          end
      end
  | attr.OtherType x => OtherEqual x o
  end.

(** [ApplyTerraform5AttributePathStep]: the type assertion on the
    step, then the element type (nil when there is none). *)
Definition ApplyTerraform5AttributePathStep (t : Type_)
    (step : option (tftypes.AttributePathStep V)) : result (option Type_) :=
  match t with
  | attr.ListType E =>
      match step with
      | Some (tftypes.ElementKeyInt _) => Ok E
      | _ => Err ("cannot apply step " +:+ tftypes.StepGoType step +:+ " to ListType")
      end
  | attr.MapType E =>
      match step with
      | Some (tftypes.ElementKeyString _) => Ok E
      | _ => Err ("cannot apply step " +:+ tftypes.StepGoType step +:+ " to MapType")
      end
  | attr.SetType E =>
      match step with
      | Some (tftypes.ElementKeyValue _) => Ok E
      | _ => Err ("cannot apply step " +:+ tftypes.StepGoType step +:+ " to SetType")
      end
  | attr.OtherType o => OtherApplyTerraform5AttributePathStep o step
  end.

(** [String]: the human-friendly description.  The method call on a
    nil [ElemType] panics. *)
Fixpoint String (t : Type_) : result string :=
  let elem (E : option Type_) : result string :=
    match E with
    | None => Panic
    | Some e => String e
    end in
  match t with
  | attr.ListType E => s ← elem E; Ok ("types.ListType[" +:+ s +:+ "]")
  | attr.MapType E => s ← elem E; Ok ("types.MapType[" +:+ s +:+ "]")
  | attr.SetType E => s ← elem E; Ok ("types.SetType[" +:+ s +:+ "]")
  | attr.OtherType o => Ok (OtherString o)
  end.

(** *** Validate *)

(** The type assertion [ElemType.(xattr.TypeWithValidate)]: it fails on
    a nil element type; the three collection types have a [Validate]
    method; any other type has one or not. *)
Definition isValidatable (E : option Type_) : bool :=
  match E with
  | None => false
  | Some (attr.OtherType o) =>
      match OtherValidate o with Some _ => true | None => false end
  | Some _ => true
  end.

Definition validationErrorDetail (err : error) : string :=
  "An unexpected error was encountered trying to validate an attribute value. This is always an error in the provider. Please report the following to the provider developer:"
    +:+ newline +:+ newline +:+ err.

(** [fmt.Errorf("expected <Shape> value, received %T with value: %v", in, in)] *)
Definition expectedError (shape : string) (inp : V) : error :=
  "expected " +:+ shape +:+ " value, received tftypes.Value with value: "
    +:+ tftypes.ValueString inp.

(** The loop of [ListType.Validate]: each fully known element is
    validated at its index; the others are skipped. *)
Fixpoint validateListElems (validate : V -> Path -> result Diagnostics) (p : Path)
    (elems : list V) (index : nat) (diags : Diagnostics) : result Diagnostics :=
  match elems with
  | [] => Ok diags
  | elem :: rest =>
      if negb (tftypes.IsFullyKnown elem) then
        validateListElems validate p rest (S index) diags
      else
        ds ← validate elem (path.AtListIndex p (Z.of_nat index));
        validateListElems validate p rest (S index) (diags ++ ds)
  end.

(** The loop of [MapType.Validate], over the entries in range order.
    Go leaves the order of a map range unspecified; [Validate] below
    hands the entries over in the order [map_to_list] lists them, and
    the properties of the result are stated up to that order. *)
Fixpoint validateMapElems (validate : V -> Path -> result Diagnostics) (p : Path)
    (elems : list (string * V)) (diags : Diagnostics) : result Diagnostics :=
  match elems with
  | [] => Ok diags
  | (index, elem) :: rest =>
      if negb (tftypes.IsFullyKnown elem) then
        validateMapElems validate p rest diags
      else
        ds ← validate elem (path.AtMapKey p index);
        validateMapElems validate p rest (diags ++ ds)
  end.

(** The inner loop of [SetType.Validate]: [elemOuter] against every
    element after it; each equal one adds an error at the set's path. *)
Fixpoint checkDuplicates (p : Path) (elemOuter : V) (inner : list V)
    (diags : Diagnostics) : Diagnostics :=
  match inner with
  | [] => diags
  | elemInner :: rest =>
      if negb (tftypes.ValueEqual elemInner elemOuter) then
        checkDuplicates p elemOuter rest diags
      else
        checkDuplicates p elemOuter rest
          (diag.AddAttributeError diags p "Duplicate Set Element"
             ("This attribute contains duplicate values of: "
                +:+ tftypes.ValueString elemInner))
  end.

(** The outer loop of [SetType.Validate].  [elems] is the part of the
    slice from [indexOuter] on, so that its tail is the range of the
    inner loop.  An element whose conversion fails ends the whole
    validation with one more error. *)
Fixpoint validateSetElems (validatable : bool) (conv : V -> result Value)
    (validate : V -> Path -> result Diagnostics) (p : Path)
    (elems : list V) (diags : Diagnostics) : result Diagnostics :=
  match elems with
  | [] => Ok diags
  | elemOuter :: inner =>
      if negb (tftypes.IsFullyKnown elemOuter) then
        validateSetElems validatable conv validate p inner diags
      else
        let duplicates (diags : Diagnostics) :=
          validateSetElems validatable conv validate p inner
            (checkDuplicates p elemOuter inner diags) in
        if validatable then
          match conv elemOuter with
          | Err err =>
              Ok (diag.AddAttributeError diags p "Set Type Validation Error"
                    (validationErrorDetail err))
          | Panic => Panic
          | Ok elemValue =>
              ds ← validate elemOuter (path.AtSetValue p elemValue);
              duplicates (diags ++ ds)
          end
        else duplicates diags
  end.

(** The method call [st.ElemType.ValueFromTerraform(ctx, elem)]. *)
Definition elemValueFromTerraform (E : option Type_) (elem : V) : result Value :=
  match E with
  | None => Panic
  | Some e => ValueFromTerraform e elem
  end.

(** [Validate].  For a type other than the three collections it is the
    type's own [Validate]; the method is only ever called on a type that
    has it, and the model answers with no diagnostics elsewhere. *)
Fixpoint Validate (t : Type_) (inp : V) (p : Path) {struct t} : result Diagnostics :=
  let diags : Diagnostics := [] in
  let elemValidate (E : option Type_) (elem : V) (p' : Path) : result Diagnostics :=
    match E with
    | None => Panic
    | Some e => Validate e elem p'
    end in
  match t with
  | attr.ListType E =>
      match tftypes.Type' inp with
      | None => Ok diags
      | Some ty =>
          if negb (tftypes.IsList ty) then
            Ok (diag.AddAttributeError diags p "List Type Validation Error"
                  (validationErrorDetail (expectedError "List" inp)))
          else if negb (tftypes.IsKnown inp) || tftypes.IsNull inp then Ok diags
          else
            match tftypes.AsSlice inp with
            | Err err =>
                Ok (diag.AddAttributeError diags p "List Type Validation Error"
                      (validationErrorDetail err))
            | Panic => Panic
            | Ok elems =>
                if negb (isValidatable E) then Ok diags
                else validateListElems (elemValidate E) p elems 0 diags
            end
      end
  | attr.MapType E =>
      match tftypes.Type' inp with
      | None => Ok diags
      | Some ty =>
          if negb (tftypes.IsMap ty) then
            Ok (diag.AddAttributeError diags p "Map Type Validation Error"
                  (validationErrorDetail (expectedError "Map" inp)))
          else if negb (tftypes.IsKnown inp) || tftypes.IsNull inp then Ok diags
          else
            match tftypes.AsMap inp with
            | Err err =>
                Ok (diag.AddAttributeError diags p "Map Type Validation Error"
                      (validationErrorDetail err))
            | Panic => Panic
            | Ok elems =>
                if negb (isValidatable E) then Ok diags
                else validateMapElems (elemValidate E) p (map_to_list elems) diags
            end
      end
  | attr.SetType E =>
      match tftypes.Type' inp with
      | None => Ok diags
      | Some ty =>
          if negb (tftypes.IsSet ty) then
            Ok (diag.AddAttributeError diags p "Set Type Validation Error"
                  (validationErrorDetail (expectedError "Set" inp)))
          else if negb (tftypes.IsKnown inp) || tftypes.IsNull inp then Ok diags
          else
            match tftypes.AsSlice inp with
            | Err err =>
                Ok (diag.AddAttributeError diags p "Set Type Validation Error"
                      (validationErrorDetail err))
            | Panic => Panic
            | Ok elems =>
                validateSetElems (isValidatable E) (elemValueFromTerraform E)
                  (elemValidate E) p elems diags
            end
      end
  | attr.OtherType o =>
      match OtherValidate o with
      | Some validate => Ok (validate inp p)
      | None => Ok diags
      end
  end.

End Types.
End basetypes.

(** ** Package fromproto5: PlanResourceChangeRequest *)

Module tfprotov5.

(** The protocol request; [DynamicValue] is the encoded value type. *)
Record PlanResourceChangeRequest (DynamicValue : Type) : Type := {
  TypeName : string;
  PriorState : option DynamicValue;
  ProposedNewState : option DynamicValue;
  Config : option DynamicValue;
  PriorPrivate : list Byte.byte;
  ProviderMeta : option DynamicValue
}.

Arguments TypeName {DynamicValue} _.
Arguments PriorState {DynamicValue} _.
Arguments ProposedNewState {DynamicValue} _.
Arguments Config {DynamicValue} _.
Arguments PriorPrivate {DynamicValue} _.
Arguments ProviderMeta {DynamicValue} _.

End tfprotov5.

Module fwserver.

(** The framework request. *)
Record PlanResourceChangeRequest (Schema ResourceType TConfig TState TPlan : Type) : Type := {
  Config : option TConfig;
  PriorPrivate : list Byte.byte;
  PriorState : option TState;
  ProposedNewState : option TPlan;
  ProviderMeta : option TConfig;
  ResourceSchema : Schema;
  ResourceType : ResourceType
}.

Arguments Build_PlanResourceChangeRequest {Schema ResourceType TConfig TState TPlan}.

End fwserver.

Module fromproto5.
Section PlanResourceChange.

Context {O OV : Type}.
Context {DynamicValue Schema ResourceType TConfig TState TPlan : Type}.

Abbreviation Diagnostics := (diag.Diagnostics O OV).

(** The sibling conversions of the package, which the function calls. *)
Variable Config : option DynamicValue -> option Schema -> option TConfig * Diagnostics.
Variable State : option DynamicValue -> option Schema -> option TState * Diagnostics.
Variable Plan : option DynamicValue -> option Schema -> option TPlan * Diagnostics.
Variable ProviderMeta : option DynamicValue -> option Schema -> option TConfig * Diagnostics.

(** A nil pointer is [None]; nil diagnostics are the empty collection. *)
Definition PlanResourceChangeRequest
    (proto5 : option (tfprotov5.PlanResourceChangeRequest DynamicValue))
    (resourceType : ResourceType)
    (resourceSchema : option Schema) (providerMetaSchema : option Schema)
    : option (fwserver.PlanResourceChangeRequest Schema ResourceType TConfig TState TPlan)
      * Diagnostics :=
  match proto5 with
  | None => (None, [])
  | Some proto5 =>
      let diags : Diagnostics := [] in
      match resourceSchema with
      | None =>
          (None,
           diag.AddError diags "Missing Resource Schema"
             ("An unexpected error was encountered when handling the request. "
                +:+ "This is always an issue in the Terraform Provider SDK used to implement the provider and should be reported to the provider developers."
                +:+ newline +:+ newline
                +:+ "Please report this to the provider developer:"
                +:+ newline +:+ newline
                +:+ "Missing schema."))
      | Some schema =>
          let '(config, configDiags) := Config (tfprotov5.Config proto5) resourceSchema in
          let diags := diags ++ configDiags in
          let '(priorState, priorStateDiags) :=
            State (tfprotov5.PriorState proto5) resourceSchema in
          let diags := diags ++ priorStateDiags in
          let '(proposedNewState, proposedNewStateDiags) :=
            Plan (tfprotov5.ProposedNewState proto5) resourceSchema in
          let diags := diags ++ proposedNewStateDiags in
          let '(providerMeta, providerMetaDiags) :=
            ProviderMeta (tfprotov5.ProviderMeta proto5) providerMetaSchema in
          let diags := diags ++ providerMetaDiags in
          (Some (fwserver.Build_PlanResourceChangeRequest
                   config (tfprotov5.PriorPrivate proto5) priorState
                   proposedNewState providerMeta schema resourceType),
           diags)
      end
  end.

End PlanResourceChange.
End fromproto5.

(** ** A concrete wire representation and concrete element types

    An instance of the two interfaces above, on which the functions
    evaluate: wire values as a type and a payload (the shape of
    [tftypes.Value]; strings, bools, lists, sets and maps), and three
    element types in the style of the framework's string and bool
    types, one of them with a [Validate] method that warns about every
    value it is shown (as the test types of the framework do). *)

Module example.

Inductive payload (W : Type) : Type :=
| unknownVal
| nilVal
| str (s : string)
| boolean (b : bool)
| slice (l : list W)
| mapping (m : list (string * W)).

Arguments unknownVal {W}.
Arguments nilVal {W}.
Arguments str {W} s.
Arguments boolean {W} b.
Arguments slice {W} l.
Arguments mapping {W} m.

Inductive wire : Type :=
| NewValue (typ : option tftypes.Type_) (value : payload wire).

Definition typ (v : wire) : option tftypes.Type_ :=
  match v with NewValue t _ => t end.

Definition value (v : wire) : payload wire :=
  match v with NewValue _ p => p end.

Definition IsKnown (v : wire) : bool :=
  match value v with unknownVal => false | _ => true end.

Definition IsNull (v : wire) : bool :=
  match value v with nilVal => true | _ => false end.

Fixpoint IsFullyKnown (v : wire) : bool :=
  match v with
  | NewValue _ unknownVal => false
  | NewValue _ (slice l) => forallb IsFullyKnown l
  | NewValue _ (mapping m) => forallb (fun kv => IsFullyKnown (snd kv)) m
  | NewValue _ _ => true
  end.

Definition AsSlice (v : wire) : result (list wire) :=
  match value v with
  | unknownVal => Err "unmarshaling unknown values is not supported"
  | nilVal => Ok []
  | slice l => Ok l
  | _ => Err "can't unmarshal into *[]tftypes.Value, expected []tftypes.Value"
  end.

Definition AsMap (v : wire) : result (gmap string wire) :=
  match value v with
  | unknownVal => Err "unmarshaling unknown values is not supported"
  | nilVal => Ok ∅
  | mapping m => Ok (list_to_map m)
  | _ => Err "can't unmarshal into *map[string]tftypes.Value, expected map[string]tftypes.Value"
  end.

(** [val.Equal(o)].  Two values without type are equal when both hold
    nothing; otherwise the types are equal and the values have no
    difference: both unknown, both null, the same string or bool, lists
    of the same length with equal children at each position, sets of the
    same length each child of which has an equal child in the other set
    (whatever the positions), maps of the same length with equal values
    under the same keys. *)
Fixpoint Equal (v o : wire) {struct v} : bool :=
  match v, o with
  | NewValue None pv, NewValue None po =>
      match pv, po with
      | nilVal, nilVal => true
      | _, _ => false
      end
  | NewValue (Some tv) pv, NewValue (Some to_) po =>
      tftypes.Equal tv to_ &&
      match pv, po with
      | unknownVal, unknownVal | nilVal, nilVal => true
      | str a, str b => bool_decide (a = b)
      | boolean a, boolean b => bool_decide (a = b)
      | slice l, slice l' =>
          if tftypes.IsSet tv then
            bool_decide (length l = length l') &&
            forallb (fun x => existsb (fun y => Equal x y) l') l &&
            forallb (fun y => existsb (fun x => Equal x y) l) l'
          else
            (fix all2 (l l' : list wire) : bool :=
               match l, l' with
               | [], [] => true
               | x :: xs, y :: ys => Equal x y && all2 xs ys
               | _, _ => false
               end) l l'
      | mapping m, mapping m' =>
          bool_decide (length m = length m') &&
          forallb (fun kx =>
                     existsb (fun ky => bool_decide (fst kx = fst ky)
                                          && Equal (snd kx) (snd ky)) m') m &&
          forallb (fun ky =>
                     existsb (fun kx => bool_decide (fst kx = fst ky)
                                          && Equal (snd kx) (snd ky)) m) m'
      | _, _ => false
      end
  | _, _ => false
  end.

Definition typeString (t : option tftypes.Type_) : string :=
  match t with
  | None => "invalid typeless tftypes.Value"
  | Some t' => tftypes.TypeString t'
  end.

Definition quote : string := String (Ascii.ascii_of_nat 34) EmptyString.

(** [val.String()]: a value without type prints as an invalid value,
    any other as its type around its content. *)
Fixpoint String (v : wire) : string :=
  match v with
  | NewValue None _ => "invalid typeless tftypes.Value<>"
  | NewValue (Some t) p =>
      tftypes.TypeString t +:+ "<" +:+
      match p with
      | unknownVal => "unknown"
      | nilVal => "null"
      | str s => quote +:+ s +:+ quote
      | boolean b => quote +:+ (if b then "true" else "false") +:+ quote
      | slice l => String.concat ", " (map String l)
      | mapping m =>
          String.concat ", "
            (map (fun kv => quote +:+ fst kv +:+ quote +:+ ":" +:+ String (snd kv)) m)
      end +:+ ">"
  end.

Lemma IsNull_IsKnown (v : wire) : IsNull v = true -> IsKnown v = true.
Proof. unfold IsNull, IsKnown. by destruct (value v). Qed.

Lemma IsFullyKnown_IsKnown (v : wire) : IsFullyKnown v = true -> IsKnown v = true.
Proof. destruct v as [t p]. by destruct p. Qed.

#[global] Instance wire_Value : tftypes.Value wire := {|
  tftypes.Type' := typ;
  tftypes.IsKnown := IsKnown;
  tftypes.IsNull := IsNull;
  tftypes.IsFullyKnown := IsFullyKnown;
  tftypes.AsSlice := AsSlice;
  tftypes.AsMap := AsMap;
  tftypes.ValueEqual := Equal;
  tftypes.ValueString := String;
  tftypes.IsNull_IsKnown := IsNull_IsKnown;
  tftypes.IsFullyKnown_IsKnown := IsFullyKnown_IsKnown
|}.

(** Element types: strings, bools, and strings with a validation that
    warns. *)
Inductive other : Type :=
| StringType
| BoolType
| StringTypeWithValidateWarning.

Inductive otherValue : Type :=
| StringValue (st : attr.state) (s : string)
| BoolValue (st : attr.state) (b : bool).

Definition otherTerraformType (o : other) : tftypes.Type_ :=
  match o with
  | StringType | StringTypeWithValidateWarning => tftypes.String
  | BoolType => tftypes.Bool
  end.

Definition otherValueFromTerraform (o : other) (inp : wire)
    : result (attr.Value other otherValue) :=
  match o, value inp with
  | (StringType | StringTypeWithValidateWarning), unknownVal =>
      Ok (attr.OtherValue (StringValue attr.StateUnknown EmptyString))
  | (StringType | StringTypeWithValidateWarning), nilVal =>
      Ok (attr.OtherValue (StringValue attr.StateNull EmptyString))
  | (StringType | StringTypeWithValidateWarning), str s =>
      Ok (attr.OtherValue (StringValue attr.StateKnown s))
  | (StringType | StringTypeWithValidateWarning), _ =>
      Err ("can't unmarshal " +:+ typeString (typ inp) +:+ " into *string, expected string")
  | BoolType, unknownVal => Ok (attr.OtherValue (BoolValue attr.StateUnknown false))
  | BoolType, nilVal => Ok (attr.OtherValue (BoolValue attr.StateNull false))
  | BoolType, boolean b => Ok (attr.OtherValue (BoolValue attr.StateKnown b))
  | BoolType, _ =>
      Err ("can't unmarshal " +:+ typeString (typ inp) +:+ " into *bool, expected boolean")
  end.

Definition otherEqual (o : other) (t : option (attr.Type_ other)) : bool :=
  match o, t with
  | StringType, Some (attr.OtherType StringType)
  | BoolType, Some (attr.OtherType BoolType)
  | StringTypeWithValidateWarning, Some (attr.OtherType StringTypeWithValidateWarning) => true
  | _, _ => false
  end.

Definition otherString (o : other) : string :=
  match o with
  | StringType => "basetypes.StringType"
  | BoolType => "basetypes.BoolType"
  | StringTypeWithValidateWarning => "testtypes.StringType"
  end.

Definition otherGoType (o : other) : string :=
  match o with
  | StringType => "basetypes.StringType"
  | BoolType => "basetypes.BoolType"
  | StringTypeWithValidateWarning => "types.StringTypeWithValidateWarning"
  end.

Definition otherApplyTerraform5AttributePathStep (o : other)
    (step : option (tftypes.AttributePathStep wire)) : result (option (attr.Type_ other)) :=
  Err ("cannot apply AttributePathStep " +:+ tftypes.StepGoType step +:+ " to "
         +:+ otherString o).

Definition otherValidate (o : other)
    : option (wire -> path.Path other otherValue -> diag.Diagnostics other otherValue) :=
  match o with
  | StringTypeWithValidateWarning =>
      Some (fun _ p =>
              [diag.NewDiagnostic diag.SeverityWarning (Some p)
                 "Warning Diagnostic" "This is a warning."])
  | _ => None
  end.

#[global] Instance other_ElementType : ElementType wire other otherValue := {|
  OtherTerraformType := otherTerraformType;
  OtherValueFromTerraform := otherValueFromTerraform;
  OtherEqual := otherEqual;
  OtherString := otherString;
  OtherGoType := otherGoType;
  OtherApplyTerraform5AttributePathStep := otherApplyTerraform5AttributePathStep;
  OtherValidate := otherValidate
|}.

(** Wire values used below. *)
Definition stringValue (s : string) : wire := NewValue (Some tftypes.String) (str s).
Definition unknownString : wire := NewValue (Some tftypes.String) unknownVal.
Definition nullString : wire := NewValue (Some tftypes.String) nilVal.
Definition boolValue (b : bool) : wire := NewValue (Some tftypes.Bool) (boolean b).
Definition listOf (elem : tftypes.Type_) (l : list wire) : wire :=
  NewValue (Some (tftypes.List (Some elem))) (slice l).
Definition setOf (elem : tftypes.Type_) (l : list wire) : wire :=
  NewValue (Some (tftypes.Set_ (Some elem))) (slice l).
Definition mapOf (elem : tftypes.Type_) (m : list (string * wire)) : wire :=
  NewValue (Some (tftypes.Map (Some elem))) (mapping m).

Abbreviation AttrType := (attr.Type_ other).
Abbreviation AttrValue := (attr.Value other otherValue).

Definition stringType : AttrType := attr.OtherType StringType.
Definition boolType : AttrType := attr.OtherType BoolType.
Definition warningType : AttrType := attr.OtherType StringTypeWithValidateWarning.
Definition known (s : string) : AttrValue := attr.OtherValue (StringValue attr.StateKnown s).

Definition root : path.Path other otherValue := path.Root "test".

Definition nullList : wire := NewValue (Some (tftypes.List (Some tftypes.String))) nilVal.
Definition unknownSet : wire := NewValue (Some (tftypes.Set_ (Some tftypes.String))) unknownVal.
Definition aabSet : wire :=
  setOf tftypes.String [stringValue "a"; stringValue "a"; stringValue "b"].
Definition trueFalseFalseSet : wire :=
  setOf tftypes.Bool [boolValue true; boolValue false; boolValue false].

(** The diagnostics of [StringTypeWithValidateWarning.Validate]. *)
Definition warning (elem : wire) : diag.Diagnostics other otherValue :=
  match otherValueFromTerraform StringTypeWithValidateWarning elem with
  | Ok av =>
      [diag.NewDiagnostic diag.SeverityWarning (Some (path.AtSetValue root av))
         "Warning Diagnostic" "This is a warning."]
  | _ => []
  end.
Definition warningAt (s : string) : diag.Diagnostic other otherValue :=
  diag.NewDiagnostic diag.SeverityWarning (Some (path.AtSetValue root (known s)))
    "Warning Diagnostic" "This is a warning.".

Definition abcList : wire :=
  listOf tftypes.String [stringValue "a"; stringValue "b"; stringValue "c"].
Definition partlyUnknownList : wire :=
  listOf tftypes.String [unknownString; stringValue "a"].
Definition partlyUnknownSet : wire :=
  setOf tftypes.String [unknownString; stringValue "a"].
Definition partlyUnknownMap : wire :=
  mapOf tftypes.String [("x", unknownString); ("y", stringValue "a")].

End example.

(** ** A stricter element type

    An element type of strings whose conversion refuses the empty
    string, as an element type that parses its strings would refuse an
    ill-formed one; and a few more wire values. *)

Module strict.

Inductive other : Type := NonEmptyStringType.

Definition otherValueFromTerraform (o : other) (inp : example.wire)
    : result (attr.Value other example.otherValue) :=
  match example.value inp with
  | example.unknownVal =>
      Ok (attr.OtherValue (example.StringValue attr.StateUnknown EmptyString))
  | example.nilVal =>
      Ok (attr.OtherValue (example.StringValue attr.StateNull EmptyString))
  | example.str EmptyString => Err "the string is empty"
  | example.str s => Ok (attr.OtherValue (example.StringValue attr.StateKnown s))
  | _ =>
      Err ("can't unmarshal " +:+ example.typeString (example.typ inp)
             +:+ " into *string, expected string")
  end.

Definition otherEqual (o : other) (t : option (attr.Type_ other)) : bool :=
  match t with
  | Some (attr.OtherType NonEmptyStringType) => true
  | _ => false
  end.

#[global] Instance other_ElementType : ElementType example.wire other example.otherValue := {|
  OtherTerraformType := fun _ => tftypes.String;
  OtherValueFromTerraform := otherValueFromTerraform;
  OtherEqual := otherEqual;
  OtherString := fun _ => "strict.NonEmptyStringType";
  OtherGoType := fun _ => "strict.NonEmptyStringType";
  OtherApplyTerraform5AttributePathStep := fun _ step =>
    Err ("cannot apply AttributePathStep " +:+ tftypes.StepGoType step
           +:+ " to strict.NonEmptyStringType");
  OtherValidate := fun _ => None
|}.

Definition nonEmptyStringType : attr.Type_ other := attr.OtherType NonEmptyStringType.

Definition xyMap : example.wire :=
  example.mapOf tftypes.String
    [("x", example.stringValue "1"); ("y", example.stringValue "2")].
Definition emptyMap : example.wire :=
  example.mapOf tftypes.String
    [("x", example.stringValue EmptyString); ("y", example.stringValue "a")].
Definition unknownPairSet : example.wire :=
  example.setOf tftypes.String [example.unknownString; example.unknownString].

End strict.

(** * The vocabulary of the properties *)

Section Vocabulary.

Context {V O OV : Type} `{!tftypes.Value V} `{!ElementType V O OV}.

Abbreviation Type_ := (attr.Type_ O).
Abbreviation Value := (attr.Value O OV).
Abbreviation Path := (path.Path O OV).
Abbreviation Diagnostic := (diag.Diagnostic O OV).
Abbreviation Diagnostics := (diag.Diagnostics O OV).

(** The children convert, one by one and in order, to [avs]. *)
Definition convertTo (E : option Type_) (val : list V) (avs : list Value) : Prop :=
  Forall2 (fun elem av => basetypes.elemValueFromTerraform E elem = Ok av) val avs.

(** Every value of the wire map converts. *)
Definition allConvert (E : option Type_) (val : gmap string V) : Prop :=
  forall key elem, val !! key = Some elem ->
    exists av, basetypes.elemValueFromTerraform E elem = Ok av.

(** The wire value is of matching type for the collection type [t]:
    [in.Type()] is there and equal to [t.TerraformType()]. *)
Definition matches (t : Type_) (inp : V) : Prop :=
  exists ty tt, tftypes.Type' inp = Some ty /\ basetypes.TerraformType t = Ok tt /\
    tftypes.Equal ty tt = true.

(** The method call [validatableType.Validate(ctx, elem, path)]. *)
Definition elemValidate (E : option Type_) (elem : V) (p : Path) : result Diagnostics :=
  match E with
  | None => Panic
  | Some e => basetypes.Validate e elem p
  end.

(** The wire value is of the kind [kind], known and not null: its
    children are looked at. *)
Definition present (kind : tftypes.Type_ -> bool) (inp : V) : Prop :=
  exists ty, tftypes.Type' inp = Some ty /\ kind ty = true /\
    tftypes.IsKnown inp = true /\ tftypes.IsNull inp = false.

(** The wire value is of the kind [kind], and unknown or null. *)
Definition exempt (kind : tftypes.Type_ -> bool) (inp : V) : Prop :=
  exists ty, tftypes.Type' inp = Some ty /\ kind ty = true /\
    (tftypes.IsKnown inp = false \/ tftypes.IsNull inp = true).

(** The error recorded for a duplicate, naming [elemInner]. *)
Definition duplicateDetail (elemInner : V) : string :=
  "This attribute contains duplicate values of: " +:+ tftypes.ValueString elemInner.

Definition duplicateDiagnostic (p : Path) (elemInner : V) : Diagnostic :=
  diag.NewAttributeErrorDiagnostic p "Duplicate Set Element" (duplicateDetail elemInner).

(** The error recorded for an element that does not convert. *)
Definition conversionDiagnostic (p : Path) (err : error) : Diagnostic :=
  diag.NewAttributeErrorDiagnostic p "Set Type Validation Error"
    (basetypes.validationErrorDetail err).

(** The diagnostics of the elements [elems] of a set that are followed
    by [tail]: for each fully known element, its own diagnostics [ds],
    then one duplicate error for each later element equal to it. *)
Fixpoint setDiagnostics (ds : V -> Diagnostics) (p : Path) (elems tail : list V)
    : Diagnostics :=
  match elems with
  | [] => []
  | elemOuter :: inner =>
      (if tftypes.IsFullyKnown elemOuter
       then ds elemOuter ++ basetypes.checkDuplicates p elemOuter (inner ++ tail) []
       else [])
      ++ setDiagnostics ds p inner tail
  end.

(** The element [elem] of a set passes the element step of the loop
    with the diagnostics [ds elem]: it converts and its validation
    returns them, or the element type has no validation and there are
    none. *)
Definition validates (E : option Type_) (p : Path) (ds : V -> Diagnostics) (elem : V)
    : Prop :=
  if basetypes.isValidatable E then
    exists av, basetypes.elemValueFromTerraform E elem = Ok av /\
      elemValidate E elem (path.AtSetValue p av) = Ok (ds elem)
  else ds elem = [].

(** The element step of the loop of [SetType.Validate] goes through on
    [elem]: the element type has no validation, or [elem] is skipped, or
    it converts and its validation returns. *)
Definition converts (E : option Type_) (p : Path) (elem : V) : Prop :=
  basetypes.isValidatable E = true -> tftypes.IsFullyKnown elem = true ->
  exists av ds, basetypes.elemValueFromTerraform E elem = Ok av /\
    elemValidate E elem (path.AtSetValue p av) = Ok ds.

(** The element step returns on [elem]: as above, or the conversion
    returns an error.  (What is left is a panic of the element type.) *)
Definition returns (E : option Type_) (p : Path) (elem : V) : Prop :=
  basetypes.isValidatable E = true -> tftypes.IsFullyKnown elem = true ->
  (exists av ds, basetypes.elemValueFromTerraform E elem = Ok av /\
     elemValidate E elem (path.AtSetValue p av) = Ok ds) \/
  (exists err, basetypes.elemValueFromTerraform E elem = Err err).

(** [d] is a duplicate-element diagnostic for the value [v]: it has the
    summary of one and its detail names [v]. *)
Definition namesDuplicate (v : V) (d : Diagnostic) : Prop :=
  diag.summary d = "Duplicate Set Element" /\ diag.detail d = duplicateDetail v.

#[global] Instance namesDuplicate_dec (v : V) (d : Diagnostic) :
  Decision (namesDuplicate v d).
Proof. unfold namesDuplicate. apply _. Defined.




(** No element type is missing in [t], however deep. *)
Fixpoint complete (t : Type_) : bool :=
  let elem (E : option Type_) : bool :=
    match E with
    | None => false
    | Some e => complete e
    end in
  match t with
  | attr.ListType E | attr.MapType E | attr.SetType E => elem E
  | attr.OtherType _ => true
  end.

(** What the laws of equality ask of the [Equal] of the other element
    types: each equals itself; whatever one of them equals is another of
    them that equals it back; whatever one of them equals is another of
    them with the same wire type. *)
Definition reflexiveOther : Prop :=
  forall o : O, OtherEqual o (Some (attr.OtherType o)) = true.

Definition symmetricOther : Prop :=
  forall (o : O) (t : option Type_), OtherEqual o t = true ->
    exists o', t = Some (attr.OtherType o') /\
      OtherEqual o' (Some (attr.OtherType o)) = true.



(** [d] is a diagnostic of the elements [elems] of a set that are
    followed by [tail]: one of the element type's own diagnostics [ds]
    for a fully known element of [elems], or the duplicate error for an
    element that stands after a fully known element of [elems] and is
    equal to it. *)
Definition setDiagnostic (ds : V -> Diagnostics) (p : Path) (elems tail : list V)
    (d : Diagnostic) : Prop :=
  (exists elem, elem ∈ elems /\ tftypes.IsFullyKnown elem = true /\ d ∈ ds elem) \/
  (exists pre elemOuter inner elemInner,
     elems = pre ++ elemOuter :: inner /\ elemInner ∈ inner ++ tail /\
     tftypes.IsFullyKnown elemOuter = true /\
     tftypes.ValueEqual elemInner elemOuter = true /\
     d = duplicateDiagnostic p elemInner).

(** [elemOuter] stands before [elemInner] in [elems]. *)
Definition before (elems : list V) (elemOuter elemInner : V) : Prop :=
  exists pre mid post, elems = pre ++ elemOuter :: mid ++ elemInner :: post.

End Vocabulary.

(** * Properties *)

(** ** Type equality, path steps, names *)

Section TypeProperties.

Context {V O OV : Type} `{!tftypes.Value V} `{!ElementType V O OV}.

Abbreviation Type_ := (attr.Type_ O).

Lemma ListType_Equal_iff (E1 : Type_) (o : option Type_) :
  basetypes.Equal (attr.ListType (Some E1)) o = true <->
  exists E2, o = Some (attr.ListType E2) /\ basetypes.Equal E1 E2 = true.
Proof.
  split.
  - destruct o as [[E2| | |]|]; simpl; try discriminate. eauto.
  - intros (E2 & -> & HE). exact HE.
Qed.

Lemma MapType_Equal_iff (E1 : Type_) (o : option Type_) :
  basetypes.Equal (attr.MapType (Some E1)) o = true <->
  exists E2, o = Some (attr.MapType E2) /\ basetypes.Equal E1 E2 = true.
Proof.
  split.
  - destruct o as [[|E2| |]|]; simpl; try discriminate. eauto.
  - intros (E2 & -> & HE). exact HE.
Qed.

Lemma SetType_Equal_iff (E1 : Type_) (o : option Type_) :
  basetypes.Equal (attr.SetType (Some E1)) o = true <->
  exists E2, o = Some (attr.SetType E2) /\ basetypes.Equal E1 E2 = true.
Proof.
  split.
  - destruct o as [[| |E2|]|]; simpl; try discriminate. eauto.
  - intros (E2 & -> & HE). exact HE.
Qed.

(** C4.  For each shape and every non-nil element type [E1], the type
    [Shape{E1}] equals [o] exactly when [o] is a type of the same shape,
    [Shape{E2}], with [E1.Equal(E2)]; a collection type whose element
    type is nil equals nothing, itself included. *)
Theorem Equal_element_type_compositional (E1 : Type_) (o : option Type_) :
  (basetypes.Equal (attr.ListType (Some E1)) o = true <->
     exists E2, o = Some (attr.ListType E2) /\ basetypes.Equal E1 E2 = true) /\
  (basetypes.Equal (attr.MapType (Some E1)) o = true <->
     exists E2, o = Some (attr.MapType E2) /\ basetypes.Equal E1 E2 = true) /\
  (basetypes.Equal (attr.SetType (Some E1)) o = true <->
     exists E2, o = Some (attr.SetType E2) /\ basetypes.Equal E1 E2 = true) /\
  basetypes.Equal (attr.ListType None) o = false /\
  basetypes.Equal (attr.MapType None) o = false /\
  basetypes.Equal (attr.SetType None) o = false /\
  basetypes.Equal (attr.ListType None) (Some (attr.ListType None)) = false /\
  basetypes.Equal (attr.MapType None) (Some (attr.MapType None)) = false /\
  basetypes.Equal (attr.SetType None) (Some (attr.SetType None)) = false.
Proof.
  split; [apply ListType_Equal_iff|].
  split; [apply MapType_Equal_iff|].
  split; [apply SetType_Equal_iff|].
  repeat split; reflexivity.
Qed.

(** C6.  [ListType] answers an integer-index step with its element type
    and every other step (a nil step too) with an error; [MapType] does
    so for string-key steps and [SetType] for element-value steps.  The
    index, key or value of the step plays no part. *)
Theorem ApplyTerraform5AttributePathStep_kinds
    (E : option Type_) (step : option (tftypes.AttributePathStep V)) :
  match step with
  | Some (tftypes.ElementKeyInt _) =>
      basetypes.ApplyTerraform5AttributePathStep (attr.ListType E) step = Ok E
  | _ => exists err,
      basetypes.ApplyTerraform5AttributePathStep (attr.ListType E) step = Err err
  end /\
  match step with
  | Some (tftypes.ElementKeyString _) =>
      basetypes.ApplyTerraform5AttributePathStep (attr.MapType E) step = Ok E
  | _ => exists err,
      basetypes.ApplyTerraform5AttributePathStep (attr.MapType E) step = Err err
  end /\
  match step with
  | Some (tftypes.ElementKeyValue _) =>
      basetypes.ApplyTerraform5AttributePathStep (attr.SetType E) step = Ok E
  | _ => exists err,
      basetypes.ApplyTerraform5AttributePathStep (attr.SetType E) step = Err err
  end.
Proof.
  destruct step as [[name|key|index|v]|]; simpl; repeat split; eauto.
Qed.

(** C7, as amended.  With an element type whose [String()] is [name],
    the three collection types are called [types.ListType[name]],
    [types.MapType[name]] and [types.SetType[name]]: the shape's name
    carries the package prefix. *)
Theorem String_format (e : Type_) (name : string) :
  basetypes.String e = Ok name ->
  basetypes.String (attr.ListType (Some e)) = Ok ("types.ListType[" +:+ name +:+ "]") /\
  basetypes.String (attr.MapType (Some e)) = Ok ("types.MapType[" +:+ name +:+ "]") /\
  basetypes.String (attr.SetType (Some e)) = Ok ("types.SetType[" +:+ name +:+ "]").
Proof.
  intros He. simpl. rewrite He. simpl. done.
Qed.

End TypeProperties.

(** The name of a list of strings. *)
Lemma String_format_witness :
  basetypes.String example.stringType = Ok "basetypes.StringType" /\
  basetypes.String (attr.ListType (Some example.stringType))
    = Ok "types.ListType[basetypes.StringType]".
Proof.
  split; [reflexivity|].
  apply (String_format example.stringType "basetypes.StringType"). reflexivity.
Defined.

(** C7, as the claim has it, fails: the name of a list of strings is
    not [ListType[...]] around the element type's name, whichever way
    the element type's name is written. *)
Lemma String_format_counterexample :
  basetypes.String example.stringType = Ok "basetypes.StringType" /\
  basetypes.String (attr.ListType (Some example.stringType))
    <> Ok "ListType[basetypes.StringType]" /\
  basetypes.String (attr.ListType (Some example.stringType))
    <> Ok "ListType[StringType]".
Proof.
  split; [reflexivity|]. split; discriminate.
Qed.

(** ** PlanResourceChangeRequest *)

Section PlanResourceChangeProperties.

Context {O OV DynamicValue Schema ResourceType TConfig TState TPlan : Type}.
Variable Config : option DynamicValue -> option Schema -> option TConfig * diag.Diagnostics O OV.
Variable State : option DynamicValue -> option Schema -> option TState * diag.Diagnostics O OV.
Variable Plan : option DynamicValue -> option Schema -> option TPlan * diag.Diagnostics O OV.
Variable ProviderMeta : option DynamicValue -> option Schema -> option TConfig * diag.Diagnostics O OV.

(** C10.  On a nil protocol request the result is a nil framework
    request and nil diagnostics, whatever the resource type, the
    resource schema and the provider meta schema are, and whatever the
    sibling conversions would answer. *)
Theorem PlanResourceChangeRequest_nil
    (resourceType : ResourceType) (resourceSchema providerMetaSchema : option Schema) :
  fromproto5.PlanResourceChangeRequest Config State Plan ProviderMeta
    None resourceType resourceSchema providerMetaSchema = (None, []).
Proof.
  unfold fromproto5.PlanResourceChangeRequest.
  (* the match on the request is on [None]: no argument is inspected *)
  reflexivity.
Qed.

End PlanResourceChangeProperties.

(** ** ValueFromTerraform *)

Section ConversionProperties.

Context {V O OV : Type} `{!tftypes.Value V} `{!ElementType V O OV}.

Abbreviation Type_ := (attr.Type_ O).
Abbreviation Value := (attr.Value O OV).

Lemma convertElems_ok (conv : V -> result Value) (val : list V) (avs elems : list Value) :
  Forall2 (fun elem av => conv elem = Ok av) val avs ->
  basetypes.convertElems conv val elems = Ok (elems ++ avs).
Proof.
  intros Hconv. revert elems.
  induction Hconv as [|elem av val avs Helem _ IH]; intros elems; simpl.
  - by rewrite app_nil_r.
  - rewrite Helem. simpl. rewrite IH. by rewrite <- app_assoc.
Qed.

Lemma convertElems_first_error (conv : V -> result Value)
    (pre post : list V) (elem : V) (avs elems : list Value) (err : error) :
  Forall2 (fun elem av => conv elem = Ok av) pre avs ->
  conv elem = Err err ->
  basetypes.convertElems conv (pre ++ elem :: post) elems = Err err.
Proof.
  intros Hpre Helem. revert elems.
  induction Hpre as [|x av pre avs Hx _ IH]; intros elems; simpl.
  - by rewrite Helem.
  - rewrite Hx. simpl. apply IH.
Qed.

Lemma convertEntries_ok (conv : V -> result Value) (val : list (string * V))
    (elems : gmap string Value) :
  NoDup val.*1 ->
  (forall key elem, (key, elem) ∈ val -> exists av, conv elem = Ok av) ->
  exists avs,
    basetypes.convertEntries conv val elems = Ok avs /\
    (forall key elem, (key, elem) ∈ val ->
       exists av, conv elem = Ok av /\ avs !! key = Some av) /\
    (forall key, key ∉ val.*1 -> avs !! key = elems !! key).
Proof.
  revert elems. induction val as [|[k x] val IH]; intros elems Hnd Hconv; simpl.
  - exists elems. split; [done|]. split; [|done].
    intros key elem Hin. by apply elem_of_nil in Hin.
  - apply NoDup_cons in Hnd as [Hk Hnd].
    destruct (Hconv k x) as [av Hav]; [by left|].
    rewrite Hav. simpl.
    destruct (IH (<[k := av]> elems) Hnd) as (avs & Hrun & Hin & Hout).
    { intros key elem Hel. apply (Hconv key elem). by right. }
    exists avs. split; [done|]. split.
    + intros key elem Hel. apply elem_of_cons in Hel as [[= -> ->]|Hel].
      * exists av. split; [done|]. rewrite (Hout k Hk). apply lookup_insert_eq.
      * by apply Hin.
    + intros key Hkey. simpl in Hkey. apply not_elem_of_cons in Hkey as [Hne Hkey].
      rewrite (Hout key Hkey). by apply lookup_insert_ne.
Qed.

(** A conversion of a map that succeeds on every entry keeps the keys. *)
Lemma convertEntries_map (conv : V -> result Value) (val : gmap string V) :
  (forall key elem, val !! key = Some elem -> exists av, conv elem = Ok av) ->
  exists avs,
    basetypes.convertEntries conv (map_to_list val) ∅ = Ok avs /\
    dom avs = dom val /\
    (forall key elem, val !! key = Some elem ->
       exists av, conv elem = Ok av /\ avs !! key = Some av).
Proof.
  intros Hconv.
  destruct (convertEntries_ok conv (map_to_list val) ∅) as (avs & Hrun & Hin & Hout).
  { apply NoDup_fst_map_to_list. }
  { intros key elem Hel. apply (Hconv key elem). by apply elem_of_map_to_list. }
  exists avs. split; [done|]. split.
  - apply set_eq. intros key. rewrite !elem_of_dom. split.
    + intros Hsome. destruct (val !! key) as [elem|] eqn:Hval; [done|].
      rewrite Hout in Hsome.
      * rewrite lookup_empty in Hsome. by destruct Hsome.
      * intros Hel. apply list_elem_of_fmap in Hel as ([k x] & -> & Hel).
        apply elem_of_map_to_list in Hel. simpl in Hval. congruence.
    + intros [elem Hval]. destruct (Hin key elem) as (av & _ & Hav).
      * by apply elem_of_map_to_list.
      * by exists av.
  - intros key elem Hval. apply Hin. by apply elem_of_map_to_list.
Qed.

Lemma convertTo_length (E : option Type_) (val : list V) (avs : list Value) :
  convertTo E val avs -> length avs = length val.
Proof. intros Hconv. symmetry. by eapply Forall2_length. Qed.

Lemma tftypes_Equal_Map (ty : tftypes.Type_) (et : option tftypes.Type_) :
  tftypes.Equal ty (tftypes.Map et) = true -> tftypes.IsMap ty = true.
Proof. by destruct ty. Qed.

Lemma ListType_known (E : option Type_) (inp : V) (val : list V) :
  matches (attr.ListType E) inp ->
  tftypes.IsKnown inp = true -> tftypes.IsNull inp = false ->
  tftypes.AsSlice inp = Ok val ->
  basetypes.ValueFromTerraform (attr.ListType E) inp =
    (elems ← basetypes.convertElems (basetypes.elemValueFromTerraform E) val [];
     Ok (basetypes.NewListValueMust E elems)).
Proof.
  intros (ty & tt & Hty & Htt & Heq) Hknown Hnull Hval.
  cbn [basetypes.ValueFromTerraform]. rewrite Hty, Htt. cbn [mbind result_bind].
  rewrite Heq, Hknown, Hnull, Hval. simpl. by destruct E.
Qed.

Lemma SetType_known (E : option Type_) (inp : V) (val : list V) :
  matches (attr.SetType E) inp ->
  tftypes.IsKnown inp = true -> tftypes.IsNull inp = false ->
  tftypes.AsSlice inp = Ok val ->
  basetypes.ValueFromTerraform (attr.SetType E) inp =
    (elems ← basetypes.convertElems (basetypes.elemValueFromTerraform E) val [];
     Ok (basetypes.NewSetValueMust E elems)).
Proof.
  intros (ty & tt & Hty & Htt & Heq) Hknown Hnull Hval.
  cbn [basetypes.ValueFromTerraform]. rewrite Hty, Htt. cbn [mbind result_bind].
  rewrite Heq, Hknown, Hnull, Hval. simpl. by destruct E.
Qed.

Lemma MapType_known (E : option Type_) (inp : V) (val : gmap string V) :
  matches (attr.MapType E) inp ->
  tftypes.IsKnown inp = true -> tftypes.IsNull inp = false ->
  tftypes.AsMap inp = Ok val ->
  basetypes.ValueFromTerraform (attr.MapType E) inp =
    (elems ← basetypes.convertEntries (basetypes.elemValueFromTerraform E)
               (map_to_list val) ∅;
     Ok (basetypes.NewMapValueMust E elems)).
Proof.
  intros (ty & tt & Hty & Htt & Heq) Hknown Hnull Hval.
  cbn [basetypes.ValueFromTerraform]. rewrite Hty.
  simpl in Htt. destruct E as [e|]; [|done].
  destruct (basetypes.TerraformType e) as [et| |] eqn:Het; simpl in Htt; try done.
  injection Htt as <-.
  rewrite (tftypes_Equal_Map _ _ Heq). cbn [negb mbind result_bind].
  rewrite Heq, Hknown, Hnull, Hval. reflexivity.
Qed.

(** C5.  On a fully known, non-null list wire value of matching type
    with children [val]: when every child converts, by the element
    type's own conversion, the result is the Known list of the converted
    children in the order of [val]; and when a child fails to convert
    after all the children before it converted, the result is that
    child's error and no value. *)
Theorem ListType_ValueFromTerraform_order (e : Type_) (inp : V) (val : list V) :
  matches (attr.ListType (Some e)) inp ->
  tftypes.IsFullyKnown inp = true -> tftypes.IsNull inp = false ->
  tftypes.AsSlice inp = Ok val ->
  (forall avs,
     Forall2 (fun elem av => basetypes.ValueFromTerraform e elem = Ok av) val avs ->
     basetypes.ValueFromTerraform (attr.ListType (Some e)) inp
       = Ok (attr.ListValue (Some e) avs attr.StateKnown)) /\
  (forall pre elem post avs err,
     val = pre ++ elem :: post ->
     Forall2 (fun elem av => basetypes.ValueFromTerraform e elem = Ok av) pre avs ->
     basetypes.ValueFromTerraform e elem = Err err ->
     basetypes.ValueFromTerraform (attr.ListType (Some e)) inp = Err err).
Proof.
  intros Hmatch Hfully Hnull Hval.
  pose proof (tftypes.IsFullyKnown_IsKnown inp Hfully) as Hknown.
  rewrite (ListType_known (Some e) inp val Hmatch Hknown Hnull Hval).
  split.
  - intros avs Hconv.
    rewrite (convertElems_ok (basetypes.elemValueFromTerraform (Some e))
               val avs [] Hconv).
    reflexivity.
  - intros pre elem post avs err -> Hpre Helem.
    rewrite (convertElems_first_error (basetypes.elemValueFromTerraform (Some e))
               pre post elem avs [] err Hpre Helem).
    reflexivity.
Qed.

(** C3, as amended.  For each of the three shapes: a wire value without
    a type converts to Null; a wire value of matching type that is
    itself unknown converts to Unknown; one that is null converts to
    Null; and any other one, whose children decode and all convert,
    converts to a Known value with as many elements as the wire
    collection has (for a map, under the same keys).  Unknown children
    do not make the collection Unknown. *)
Theorem ValueFromTerraform_determinacy (E : option Type_) (inp : V) :
  (tftypes.Type' inp = None ->
     basetypes.ValueFromTerraform (attr.ListType E) inp = Ok (basetypes.NewListNull E) /\
     basetypes.ValueFromTerraform (attr.MapType E) inp = Ok (basetypes.NewMapNull E) /\
     basetypes.ValueFromTerraform (attr.SetType E) inp = Ok (basetypes.NewSetNull E)) /\
  (matches (attr.ListType E) inp ->
     (tftypes.IsKnown inp = false ->
        basetypes.ValueFromTerraform (attr.ListType E) inp
          = Ok (attr.ListValue E [] attr.StateUnknown)) /\
     (tftypes.IsNull inp = true ->
        basetypes.ValueFromTerraform (attr.ListType E) inp
          = Ok (attr.ListValue E [] attr.StateNull)) /\
     (tftypes.IsKnown inp = true -> tftypes.IsNull inp = false ->
      forall val avs, tftypes.AsSlice inp = Ok val -> convertTo E val avs ->
        basetypes.ValueFromTerraform (attr.ListType E) inp
          = Ok (attr.ListValue E avs attr.StateKnown) /\
        length avs = length val)) /\
  (matches (attr.MapType E) inp ->
     (tftypes.IsKnown inp = false ->
        basetypes.ValueFromTerraform (attr.MapType E) inp
          = Ok (attr.MapValue E ∅ attr.StateUnknown)) /\
     (tftypes.IsNull inp = true ->
        basetypes.ValueFromTerraform (attr.MapType E) inp
          = Ok (attr.MapValue E ∅ attr.StateNull)) /\
     (tftypes.IsKnown inp = true -> tftypes.IsNull inp = false ->
      forall val, tftypes.AsMap inp = Ok val -> allConvert E val ->
        exists avs,
          basetypes.ValueFromTerraform (attr.MapType E) inp
            = Ok (attr.MapValue E avs attr.StateKnown) /\
          size avs = size val /\ dom avs = dom val)) /\
  (matches (attr.SetType E) inp ->
     (tftypes.IsKnown inp = false ->
        basetypes.ValueFromTerraform (attr.SetType E) inp
          = Ok (attr.SetValue E [] attr.StateUnknown)) /\
     (tftypes.IsNull inp = true ->
        basetypes.ValueFromTerraform (attr.SetType E) inp
          = Ok (attr.SetValue E [] attr.StateNull)) /\
     (tftypes.IsKnown inp = true -> tftypes.IsNull inp = false ->
      forall val avs, tftypes.AsSlice inp = Ok val -> convertTo E val avs ->
        basetypes.ValueFromTerraform (attr.SetType E) inp
          = Ok (attr.SetValue E avs attr.StateKnown) /\
        length avs = length val)).
Proof.
  split.
  { intros Hty. simpl. by rewrite Hty. }
  split; [|split].
  - intros Hmatch. split; [|split].
    + destruct Hmatch as (ty & tt & Hty & Htt & Heq). intros Hknown.
      cbn [basetypes.ValueFromTerraform]. rewrite Hty, Htt. cbn [mbind result_bind].
      by rewrite Heq, Hknown.
    + destruct Hmatch as (ty & tt & Hty & Htt & Heq). intros Hnull.
      cbn [basetypes.ValueFromTerraform]. rewrite Hty, Htt. cbn [mbind result_bind].
      by rewrite Heq, (tftypes.IsNull_IsKnown inp Hnull), Hnull.
    + intros Hknown Hnull val avs Hval Hconv.
      rewrite (ListType_known E inp val Hmatch Hknown Hnull Hval).
      rewrite (convertElems_ok _ val avs [] Hconv).
      split; [reflexivity|]. by eapply convertTo_length.
  - intros Hmatch. split; [|split].
    + destruct Hmatch as (ty & tt & Hty & Htt & Heq). intros Hknown.
      cbn [basetypes.ValueFromTerraform]. rewrite Hty.
      simpl in Htt. destruct E as [e|]; [|done].
      destruct (basetypes.TerraformType e) as [et| |] eqn:Het; simpl in Htt; try done.
      injection Htt as <-.
      rewrite (tftypes_Equal_Map _ _ Heq). cbn [negb mbind result_bind].
      by rewrite Heq, Hknown.
    + destruct Hmatch as (ty & tt & Hty & Htt & Heq). intros Hnull.
      cbn [basetypes.ValueFromTerraform]. rewrite Hty.
      simpl in Htt. destruct E as [e|]; [|done].
      destruct (basetypes.TerraformType e) as [et| |] eqn:Het; simpl in Htt; try done.
      injection Htt as <-.
      rewrite (tftypes_Equal_Map _ _ Heq). cbn [negb mbind result_bind].
      by rewrite Heq, (tftypes.IsNull_IsKnown inp Hnull), Hnull.
    + intros Hknown Hnull val Hval Hconv.
      rewrite (MapType_known E inp val Hmatch Hknown Hnull Hval).
      destruct (convertEntries_map (basetypes.elemValueFromTerraform E) val Hconv)
        as (avs & Hrun & Hdom & _).
      exists avs. rewrite Hrun. split; [reflexivity|]. split; [|done].
      by rewrite <- !size_dom, Hdom.
  - intros Hmatch. split; [|split].
    + destruct Hmatch as (ty & tt & Hty & Htt & Heq). intros Hknown.
      cbn [basetypes.ValueFromTerraform]. rewrite Hty, Htt. cbn [mbind result_bind].
      by rewrite Heq, Hknown.
    + destruct Hmatch as (ty & tt & Hty & Htt & Heq). intros Hnull.
      cbn [basetypes.ValueFromTerraform]. rewrite Hty, Htt. cbn [mbind result_bind].
      by rewrite Heq, (tftypes.IsNull_IsKnown inp Hnull), Hnull.
    + intros Hknown Hnull val avs Hval Hconv.
      rewrite (SetType_known E inp val Hmatch Hknown Hnull Hval).
      rewrite (convertElems_ok _ val avs [] Hconv).
      split; [reflexivity|]. by eapply convertTo_length.
Qed.

End ConversionProperties.

(** The list ["a"; "b"; "c"] of strings converts to the Known list of
    the same strings in the same order. *)
Lemma ListType_ValueFromTerraform_order_witness :
  matches (attr.ListType (Some example.stringType)) example.abcList /\
  tftypes.IsFullyKnown example.abcList = true /\
  tftypes.IsNull example.abcList = false /\
  basetypes.ValueFromTerraform (attr.ListType (Some example.stringType)) example.abcList
    = Ok (attr.ListValue (Some example.stringType)
            [example.known "a"; example.known "b"; example.known "c"]
            attr.StateKnown).
Proof.
  assert (Hmatch : matches (attr.ListType (Some example.stringType)) example.abcList).
  { exists (tftypes.List (Some tftypes.String)), (tftypes.List (Some tftypes.String)).
    repeat split; reflexivity. }
  split; [exact Hmatch|]. split; [reflexivity|]. split; [reflexivity|].
  apply (proj1 (ListType_ValueFromTerraform_order example.stringType example.abcList
                  [example.stringValue "a"; example.stringValue "b"; example.stringValue "c"]
                  Hmatch eq_refl eq_refl eq_refl)).
  repeat constructor.
Defined.

(** A known list with an unknown child converts to a Known list of two
    elements, the first of them unknown. *)
Lemma ValueFromTerraform_determinacy_witness :
  matches (attr.ListType (Some example.stringType)) example.partlyUnknownList /\
  tftypes.IsKnown example.partlyUnknownList = true /\
  tftypes.IsNull example.partlyUnknownList = false /\
  basetypes.ValueFromTerraform (attr.ListType (Some example.stringType))
    example.partlyUnknownList
    = Ok (attr.ListValue (Some example.stringType)
            [attr.OtherValue (example.StringValue attr.StateUnknown EmptyString);
             example.known "a"]
            attr.StateKnown) /\
  length [attr.OtherValue (example.StringValue attr.StateUnknown EmptyString);
          example.known "a"]
    = length [example.unknownString; example.stringValue "a"].
Proof.
  assert (Hmatch : matches (attr.ListType (Some example.stringType))
                     example.partlyUnknownList).
  { exists (tftypes.List (Some tftypes.String)), (tftypes.List (Some tftypes.String)).
    repeat split; reflexivity. }
  split; [exact Hmatch|]. split; [reflexivity|]. split; [reflexivity|].
  destruct (ValueFromTerraform_determinacy (Some example.stringType)
              example.partlyUnknownList) as (_ & Hlist & _).
  destruct (Hlist Hmatch) as (_ & _ & Hknown).
  apply (Hknown eq_refl eq_refl [example.unknownString; example.stringValue "a"]).
  - reflexivity.
  - repeat constructor.
Defined.

(** C3, as the claim has it, fails: a list, a map and a set of matching
    type with an unknown child are not fully known, and none of them
    converts to an Unknown value. *)
Lemma ValueFromTerraform_determinacy_counterexample :
  (matches (attr.ListType (Some example.stringType)) example.partlyUnknownList /\
   tftypes.IsFullyKnown example.partlyUnknownList = false /\
   basetypes.ValueFromTerraform (attr.ListType (Some example.stringType))
     example.partlyUnknownList
     <> Ok (basetypes.NewListUnknown (Some example.stringType))) /\
  (matches (attr.MapType (Some example.stringType)) example.partlyUnknownMap /\
   tftypes.IsFullyKnown example.partlyUnknownMap = false /\
   basetypes.ValueFromTerraform (attr.MapType (Some example.stringType))
     example.partlyUnknownMap
     <> Ok (basetypes.NewMapUnknown (Some example.stringType))) /\
  (matches (attr.SetType (Some example.stringType)) example.partlyUnknownSet /\
   tftypes.IsFullyKnown example.partlyUnknownSet = false /\
   basetypes.ValueFromTerraform (attr.SetType (Some example.stringType))
     example.partlyUnknownSet
     <> Ok (basetypes.NewSetUnknown (Some example.stringType))).
Proof.
  repeat split;
    try (eexists _, _; repeat split; reflexivity);
    try (vm_compute; discriminate).
Qed.

(** ** Validate *)

Section ValidationProperties.

Context {V O OV : Type} `{!tftypes.Value V} `{!ElementType V O OV}.

Abbreviation Type_ := (attr.Type_ O).
Abbreviation Value := (attr.Value O OV).
Abbreviation Path := (path.Path O OV).
Abbreviation Diagnostic := (diag.Diagnostic O OV).
Abbreviation Diagnostics := (diag.Diagnostics O OV).

Lemma ListType_Validate_present (E : option Type_) (inp : V) (p : Path) (elems : list V) :
  present tftypes.IsList inp -> tftypes.AsSlice inp = Ok elems ->
  basetypes.Validate (attr.ListType E) inp p =
    if negb (basetypes.isValidatable E) then Ok []
    else basetypes.validateListElems (elemValidate E) p elems 0 [].
Proof.
  intros (ty & Hty & His & Hknown & Hnull) Helems.
  cbn [basetypes.Validate]. rewrite Hty, His, Hknown, Hnull, Helems. simpl.
  by destruct E.
Qed.

Lemma MapType_Validate_present (E : option Type_) (inp : V) (p : Path)
    (elems : gmap string V) :
  present tftypes.IsMap inp -> tftypes.AsMap inp = Ok elems ->
  basetypes.Validate (attr.MapType E) inp p =
    if negb (basetypes.isValidatable E) then Ok []
    else basetypes.validateMapElems (elemValidate E) p (map_to_list elems) [].
Proof.
  intros (ty & Hty & His & Hknown & Hnull) Helems.
  cbn [basetypes.Validate]. rewrite Hty, His, Hknown, Hnull, Helems. simpl.
  by destruct E.
Qed.

Lemma SetType_Validate_present (E : option Type_) (inp : V) (p : Path) (elems : list V) :
  present tftypes.IsSet inp -> tftypes.AsSlice inp = Ok elems ->
  basetypes.Validate (attr.SetType E) inp p =
    basetypes.validateSetElems (basetypes.isValidatable E)
      (basetypes.elemValueFromTerraform E) (elemValidate E) p elems [].
Proof.
  intros (ty & Hty & His & Hknown & Hnull) Helems.
  cbn [basetypes.Validate]. rewrite Hty, His, Hknown, Hnull, Helems. simpl.
  by destruct E.
Qed.

(** C8, as amended.  For each of the three shapes, [Validate] returns no
    diagnostics on a wire value without a type, and on a wire value of
    the shape's own kind that is itself unknown or null; its children, if
    any, are not looked at. *)
Theorem Validate_exempt (E : option Type_) (inp : V) (p : Path) :
  (tftypes.Type' inp = None ->
     basetypes.Validate (attr.ListType E) inp p = Ok [] /\
     basetypes.Validate (attr.MapType E) inp p = Ok [] /\
     basetypes.Validate (attr.SetType E) inp p = Ok []) /\
  (exempt tftypes.IsList inp -> basetypes.Validate (attr.ListType E) inp p = Ok []) /\
  (exempt tftypes.IsMap inp -> basetypes.Validate (attr.MapType E) inp p = Ok []) /\
  (exempt tftypes.IsSet inp -> basetypes.Validate (attr.SetType E) inp p = Ok []).
Proof.
  split.
  { intros Hty. simpl. by rewrite Hty. }
  repeat split; intros (ty & Hty & His & [Hknown|Hnull]);
    cbn [basetypes.Validate]; rewrite Hty, His; simpl.
  all: try (by rewrite Hknown).
  all: by rewrite Hnull, orb_true_r.
Qed.

End ValidationProperties.

(** A null list of strings, a null map and an unknown set validate to
    nothing. *)
Lemma Validate_exempt_witness :
  exempt tftypes.IsList example.nullList /\
  basetypes.Validate (attr.ListType (Some example.warningType))
    example.nullList example.root = Ok [] /\
  exempt tftypes.IsSet example.unknownSet /\
  basetypes.Validate (attr.SetType (Some example.warningType))
    example.unknownSet example.root = Ok [].
Proof.
  assert (Hlist : exempt tftypes.IsList example.nullList).
  { exists (tftypes.List (Some tftypes.String)). repeat split. by right. }
  assert (Hset : exempt tftypes.IsSet example.unknownSet).
  { exists (tftypes.Set_ (Some tftypes.String)). repeat split. by left. }
  split; [exact Hlist|]. split.
  { apply (Validate_exempt (Some example.warningType) example.nullList example.root).
    exact Hlist. }
  split; [exact Hset|].
  apply (Validate_exempt (Some example.warningType) example.unknownSet example.root).
  exact Hset.
Defined.

(** C8, as the claim has it, fails: a null wire value that is not a
    list draws an error from [ListType.Validate] (and likewise for the
    other two shapes). *)
Lemma Validate_exempt_counterexample :
  tftypes.IsNull example.nullString = true /\
  basetypes.Validate (attr.ListType (Some example.stringType))
    example.nullString example.root
    = Ok [diag.NewAttributeErrorDiagnostic example.root "List Type Validation Error"
            (basetypes.validationErrorDetail
               (basetypes.expectedError "List" example.nullString))] /\
  basetypes.Validate (attr.ListType (Some example.stringType))
    example.nullString example.root <> Ok [] /\
  basetypes.Validate (attr.MapType (Some example.stringType))
    example.nullString example.root <> Ok [] /\
  basetypes.Validate (attr.SetType (Some example.stringType))
    example.nullString example.root <> Ok [].
Proof.
  split; [reflexivity|]. split; [reflexivity|]. repeat split; discriminate.
Qed.

(** A known list with an unknown child is not fully known, and its
    fully known children are validated all the same. *)
Lemma Validate_partly_unknown :
  tftypes.IsFullyKnown example.partlyUnknownList = false /\
  basetypes.Validate (attr.ListType (Some example.warningType))
    example.partlyUnknownList example.root
    = Ok [diag.NewDiagnostic diag.SeverityWarning
            (Some (path.AtListIndex example.root 1))
            "Warning Diagnostic" "This is a warning."].
Proof. split; reflexivity. Qed.

(** ** The loops of Validate *)

Section ValidationLoops.

Context {V O OV : Type} `{!tftypes.Value V} `{!ElementType V O OV}.

Abbreviation Type_ := (attr.Type_ O).
Abbreviation Value := (attr.Value O OV).
Abbreviation Path := (path.Path O OV).
Abbreviation Diagnostic := (diag.Diagnostic O OV).
Abbreviation Diagnostics := (diag.Diagnostics O OV).

Lemma checkDuplicates_acc (p : Path) (elemOuter : V) (inner : list V) (diags : Diagnostics) :
  basetypes.checkDuplicates p elemOuter inner diags
    = diags ++ basetypes.checkDuplicates p elemOuter inner [].
Proof.
  revert diags. induction inner as [|elemInner inner IH]; intros diags; simpl.
  - by rewrite app_nil_r.
  - destruct (tftypes.ValueEqual elemInner elemOuter); simpl; [|apply IH].
    rewrite IH. rewrite (IH (diag.AddAttributeError [] _ _ _)).
    unfold diag.AddAttributeError. by rewrite app_assoc.
Qed.

Lemma checkDuplicates_filter (p : Path) (elemOuter : V) (inner : list V) :
  basetypes.checkDuplicates p elemOuter inner []
    = duplicateDiagnostic p
        <$> filter (fun elemInner => tftypes.ValueEqual elemInner elemOuter = true) inner.
Proof.
  induction inner as [|elemInner inner IH]; simpl; [done|].
  destruct (tftypes.ValueEqual elemInner elemOuter) eqn:Heq; simpl.
  - rewrite checkDuplicates_acc, IH. by rewrite filter_cons_True.
  - rewrite IH. by rewrite filter_cons_False; [|congruence].
Qed.

Lemma validateSetElems_prefix (E : option Type_) (p : Path) (ds : V -> Diagnostics)
    (pre tail : list V) (diags : Diagnostics) :
  Forall (fun elem => tftypes.IsFullyKnown elem = true -> validates E p ds elem) pre ->
  basetypes.validateSetElems (basetypes.isValidatable E)
    (basetypes.elemValueFromTerraform E) (elemValidate E) p (pre ++ tail) diags
  = basetypes.validateSetElems (basetypes.isValidatable E)
      (basetypes.elemValueFromTerraform E) (elemValidate E) p tail
      (diags ++ setDiagnostics ds p pre tail).
Proof.
  intros Hpre. revert diags.
  induction Hpre as [|elemOuter pre Helem _ IH]; intros diags; simpl.
  - by rewrite app_nil_r.
  - destruct (tftypes.IsFullyKnown elemOuter) eqn:Hfully; simpl.
    + specialize (Helem eq_refl). unfold validates in Helem.
      destruct (basetypes.isValidatable E).
      * destruct Helem as (av & Hconv & Hval). rewrite Hconv, Hval. simpl.
        rewrite IH. f_equal.
        rewrite checkDuplicates_acc. by rewrite <- !app_assoc.
      * rewrite Helem, IH. f_equal.
        rewrite checkDuplicates_acc. by rewrite <- !app_assoc.
    + apply IH.
Qed.

Lemma validateListElems_run (validate : V -> Path -> result Diagnostics) (p : Path)
    (ds : nat -> Diagnostics) (elems : list V) (index : nat) (diags : Diagnostics) :
  (forall i elem, elems !! i = Some elem -> tftypes.IsFullyKnown elem = true ->
     validate elem (path.AtListIndex p (Z.of_nat (index + i))) = Ok (ds (index + i))) ->
  basetypes.validateListElems validate p elems index diags
    = Ok (diags ++ concat (imap (fun i elem =>
            if tftypes.IsFullyKnown elem then ds (index + i) else []) elems)).
Proof.
  revert index diags. induction elems as [|elem rest IH]; intros index diags Hval; simpl.
  - by rewrite app_nil_r.
  - assert (Hrest : forall i x, rest !! i = Some x -> tftypes.IsFullyKnown x = true ->
              validate x (path.AtListIndex p (Z.of_nat (S index + i)))
                = Ok (ds (S index + i))).
    { intros i x Hi Hx. replace (S index + i) with (index + S i) by lia.
      by apply Hval. }
    rewrite (imap_ext _ (fun i x => if tftypes.IsFullyKnown x
                                     then ds (S index + i) else []) rest).
    2:{ intros i x _. simpl. by replace (index + S i) with (S (index + i)) by lia. }
    destruct (tftypes.IsFullyKnown elem) eqn:Hfully; simpl.
    + pose proof (Hval 0 elem eq_refl Hfully) as H0.
      rewrite Nat.add_0_r in H0. rewrite H0. simpl.
      rewrite (IH (S index) _ Hrest). rewrite Nat.add_0_r. by rewrite <- app_assoc.
    + by rewrite (IH (S index) _ Hrest).
Qed.

Lemma validateMapElems_run (validate : V -> Path -> result Diagnostics) (p : Path)
    (ds : string -> Diagnostics) (elems : list (string * V)) (diags : Diagnostics) :
  (forall key elem, (key, elem) ∈ elems -> tftypes.IsFullyKnown elem = true ->
     validate elem (path.AtMapKey p key) = Ok (ds key)) ->
  basetypes.validateMapElems validate p elems diags
    = Ok (diags ++ concat ((fun entry =>
            if tftypes.IsFullyKnown entry.2 then ds entry.1 else []) <$> elems)).
Proof.
  revert diags. induction elems as [|[key elem] rest IH]; intros diags Hval; simpl.
  - by rewrite app_nil_r.
  - assert (Hrest : forall k x, (k, x) ∈ rest -> tftypes.IsFullyKnown x = true ->
              validate x (path.AtMapKey p k) = Ok (ds k)).
    { intros k x Hin. apply Hval. by right. }
    destruct (tftypes.IsFullyKnown elem) eqn:Hfully; simpl.
    + rewrite (Hval key elem); [|by left|done]. simpl.
      rewrite (IH _ Hrest). by rewrite <- app_assoc.
    + by rewrite (IH _ Hrest).
Qed.

Lemma elem_of_setDiagnostics (ds : V -> Diagnostics) (p : Path) (elems tail : list V)
    (d : Diagnostic) :
  d ∈ setDiagnostics ds p elems tail <-> setDiagnostic ds p elems tail d.
Proof.
  unfold setDiagnostic. induction elems as [|x inner IH]; cbn [setDiagnostics].
  - split; [intros Hd; by apply elem_of_nil in Hd|].
    intros [(elem & Hin & _)|(pre & a & rest & b & Heq & _)].
    + by apply elem_of_nil in Hin.
    + by destruct pre.
  - rewrite elem_of_app, IH. split.
    + intros [Hd|[(elem & Hin & Hfully & Hd)|(pre & a & rest & b & -> & Hb & Ha & Heq & ->)]].
      * destruct (tftypes.IsFullyKnown x) eqn:Hx; [|by apply elem_of_nil in Hd].
        apply elem_of_app in Hd as [Hd|Hd].
        -- left. exists x. split; [by left|done].
        -- right. rewrite checkDuplicates_filter in Hd.
           apply list_elem_of_fmap in Hd as (b & -> & Hb).
           apply list_elem_of_filter in Hb as [Heq Hin].
           by exists [], x, inner, b.
      * left. exists elem. split; [by right|done].
      * right. by exists (x :: pre), a, rest, b.
    + intros [(elem & Hin & Hfully & Hd)|(pre & a & rest & b & Heq & Hb & Ha & Hba & ->)].
      * apply elem_of_cons in Hin as [->|Hin].
        -- left. rewrite Hfully. apply elem_of_app. by left.
        -- right. left. by exists elem.
      * destruct pre as [|y pre]; simpl in Heq; injection Heq as -> ->.
        -- left. rewrite Ha. apply elem_of_app. right.
           rewrite checkDuplicates_filter. apply list_elem_of_fmap.
           exists b. split; [done|]. by apply list_elem_of_filter.
        -- right. right. by exists pre, a, rest, b.
Qed.

(** C2, as amended.  Validation of a list and of a map never stops at
    an element: the result is the diagnostics of all the fully known
    elements, one element after the other (for a map, in some order of
    its entries).  Validation of a set goes on in the same way past the
    diagnostics and the duplicates of an element: its result holds the
    element type's diagnostics for every fully known element and the
    duplicate error for every element that follows a fully known element
    equal to it, and nothing else.  But at the first fully known element
    that does not convert (when the element type has a validation) it
    stops: the result holds what the elements before that one give, one
    conversion error at the set's path, and nothing else.  A collection
    that does not decode yields one error and nothing else. *)
Theorem Validate_accumulates (E : option Type_) (inp : V) (p : Path) :
  (forall elems ds,
     present tftypes.IsList inp -> tftypes.AsSlice inp = Ok elems ->
     basetypes.isValidatable E = true ->
     (forall i elem, elems !! i = Some elem -> tftypes.IsFullyKnown elem = true ->
        elemValidate E elem (path.AtListIndex p (Z.of_nat i)) = Ok (ds i)) ->
     basetypes.Validate (attr.ListType E) inp p
       = Ok (concat (imap (fun i elem =>
               if tftypes.IsFullyKnown elem then ds i else []) elems))) /\
  (forall elems ds,
     present tftypes.IsMap inp -> tftypes.AsMap inp = Ok elems ->
     basetypes.isValidatable E = true ->
     (forall key elem, elems !! key = Some elem -> tftypes.IsFullyKnown elem = true ->
        elemValidate E elem (path.AtMapKey p key) = Ok (ds key)) ->
     exists entries,
       entries ≡ₚ map_to_list elems /\
       basetypes.Validate (attr.MapType E) inp p
         = Ok (concat ((fun entry =>
                 if tftypes.IsFullyKnown entry.2 then ds entry.1 else [])
               <$> entries))) /\
  (forall elems ds,
     present tftypes.IsSet inp -> tftypes.AsSlice inp = Ok elems ->
     Forall (fun elem => tftypes.IsFullyKnown elem = true -> validates E p ds elem) elems ->
     exists diags,
       basetypes.Validate (attr.SetType E) inp p = Ok diags /\
       forall d, d ∈ diags <-> setDiagnostic ds p elems [] d) /\
  (forall pre elem post ds err,
     present tftypes.IsSet inp -> tftypes.AsSlice inp = Ok (pre ++ elem :: post) ->
     basetypes.isValidatable E = true ->
     Forall (fun x => tftypes.IsFullyKnown x = true -> validates E p ds x) pre ->
     tftypes.IsFullyKnown elem = true ->
     basetypes.elemValueFromTerraform E elem = Err err ->
     exists diags,
       basetypes.Validate (attr.SetType E) inp p = Ok diags /\
       forall d, d ∈ diags <->
         setDiagnostic ds p pre (elem :: post) d \/ d = conversionDiagnostic p err) /\
  (forall err,
     present tftypes.IsList inp -> tftypes.AsSlice inp = Err err ->
     basetypes.Validate (attr.ListType E) inp p
       = Ok [diag.NewAttributeErrorDiagnostic p "List Type Validation Error"
               (basetypes.validationErrorDetail err)]) /\
  (forall err,
     present tftypes.IsMap inp -> tftypes.AsMap inp = Err err ->
     basetypes.Validate (attr.MapType E) inp p
       = Ok [diag.NewAttributeErrorDiagnostic p "Map Type Validation Error"
               (basetypes.validationErrorDetail err)]) /\
  (forall err,
     present tftypes.IsSet inp -> tftypes.AsSlice inp = Err err ->
     basetypes.Validate (attr.SetType E) inp p
       = Ok [diag.NewAttributeErrorDiagnostic p "Set Type Validation Error"
               (basetypes.validationErrorDetail err)]).
Proof.
  split; [|split; [|split; [|split; [|split; [|split]]]]].
  - intros elems ds Hpresent Helems Hvalidatable Hval.
    rewrite (ListType_Validate_present E inp p elems Hpresent Helems), Hvalidatable.
    simpl. by rewrite (validateListElems_run _ p ds elems 0 [] Hval).
  - intros elems ds Hpresent Helems Hvalidatable Hval.
    exists (map_to_list elems). split; [done|].
    rewrite (MapType_Validate_present E inp p elems Hpresent Helems), Hvalidatable.
    simpl. rewrite (validateMapElems_run _ p ds (map_to_list elems) []); [done|].
    intros key elem Hin. apply Hval. by apply elem_of_map_to_list.
  - intros elems ds Hpresent Helems Hval.
    exists (setDiagnostics ds p elems []). split; [|apply elem_of_setDiagnostics].
    rewrite (SetType_Validate_present E inp p elems Hpresent Helems).
    rewrite <- (app_nil_r elems) at 1.
    by rewrite (validateSetElems_prefix E p ds elems [] [] Hval).
  - intros pre elem post ds err Hpresent Helems Hvalidatable Hpre Hfully Hconv.
    exists (setDiagnostics ds p pre (elem :: post) ++ [conversionDiagnostic p err]).
    split.
    + rewrite (SetType_Validate_present E inp p _ Hpresent Helems).
      rewrite (validateSetElems_prefix E p ds pre (elem :: post) [] Hpre).
      simpl. by rewrite Hfully, Hvalidatable, Hconv.
    + intros d. rewrite elem_of_app, elem_of_setDiagnostics, list_elem_of_singleton.
      done.
  - intros err (ty & Hty & His & Hknown & Hnull) Herr.
    cbn [basetypes.Validate]. by rewrite Hty, His, Hknown, Hnull, Herr.
  - intros err (ty & Hty & His & Hknown & Hnull) Herr.
    cbn [basetypes.Validate]. by rewrite Hty, His, Hknown, Hnull, Herr.
  - intros err (ty & Hty & His & Hknown & Hnull) Herr.
    cbn [basetypes.Validate]. by rewrite Hty, His, Hknown, Hnull, Herr.
Qed.

End ValidationLoops.

(** A set of strings in which "a" comes twice, under an element type
    that warns about every element: the result holds the warnings of the
    three elements and the duplicate, and nothing else. *)
Lemma Validate_accumulates_witness :
  present tftypes.IsSet example.aabSet /\
  exists diags,
    basetypes.Validate (attr.SetType (Some example.warningType))
      example.aabSet example.root = Ok diags /\
    forall d, d ∈ diags <->
      setDiagnostic (fun elem => example.warning elem) example.root
        [example.stringValue "a"; example.stringValue "a"; example.stringValue "b"] [] d.
Proof.
  assert (Hpresent : present tftypes.IsSet example.aabSet).
  { exists (tftypes.Set_ (Some tftypes.String)). by repeat split. }
  split; [exact Hpresent|].
  destruct (Validate_accumulates (Some example.warningType) example.aabSet example.root)
    as (_ & _ & Hset & _).
  apply (Hset [example.stringValue "a"; example.stringValue "a"; example.stringValue "b"]
           (fun elem => example.warning elem) Hpresent eq_refl).
  repeat constructor; intros _; eexists; split; reflexivity.
Defined.

(** C2, as the claim has it, fails: a set of bools under an element
    type of strings decodes, its first element does not convert, and the
    validation ends there with that one error; the two elements after it
    are not looked at and their being duplicates is not reported.  With
    an element type that has no validation the same set gets its
    duplicate reported. *)
Lemma Validate_accumulates_counterexample :
  present tftypes.IsSet example.trueFalseFalseSet /\
  tftypes.AsSlice example.trueFalseFalseSet
    = Ok [example.boolValue true; example.boolValue false; example.boolValue false] /\
  basetypes.Validate (attr.SetType (Some example.warningType))
    example.trueFalseFalseSet example.root
    = Ok [conversionDiagnostic example.root
            "can't unmarshal tftypes.Bool into *string, expected string"] /\
  basetypes.Validate (attr.SetType (Some example.stringType))
    example.trueFalseFalseSet example.root
    = Ok [duplicateDiagnostic example.root (example.boolValue false)].
Proof.
  split.
  { exists (tftypes.Set_ (Some tftypes.Bool)). by repeat split. }
  repeat split; reflexivity.
Qed.

(** ** Duplicates in a set *)

Section Duplicates.

Context {V O OV : Type} `{!tftypes.Value V} `{!ElementType V O OV}.

Abbreviation Type_ := (attr.Type_ O).
Abbreviation Path := (path.Path O OV).
Abbreviation Diagnostic := (diag.Diagnostic O OV).
Abbreviation Diagnostics := (diag.Diagnostics O OV).

Lemma checkDuplicates_elem_of (p : Path) (elemOuter elemInner : V) (inner : list V)
    (diags : Diagnostics) :
  elemInner ∈ inner -> tftypes.ValueEqual elemInner elemOuter = true ->
  duplicateDiagnostic p elemInner ∈ basetypes.checkDuplicates p elemOuter inner diags.
Proof.
  intros Hin Heq. rewrite checkDuplicates_acc, checkDuplicates_filter.
  apply elem_of_app. right. apply list_elem_of_fmap.
  exists elemInner. split; [done|]. by apply list_elem_of_filter.
Qed.

Lemma validateSetElems_returns (E : option Type_) (p : Path) (elems : list V)
    (diags : Diagnostics) :
  Forall (returns E p) elems ->
  exists out,
    basetypes.validateSetElems (basetypes.isValidatable E)
      (basetypes.elemValueFromTerraform E) (elemValidate E) p elems diags = Ok out /\
    forall d, d ∈ diags -> d ∈ out.
Proof.
  intros Hret. revert diags.
  induction Hret as [|elemOuter inner Helem _ IH]; intros diags; simpl.
  - by exists diags.
  - destruct (tftypes.IsFullyKnown elemOuter) eqn:Hfully; simpl; [|apply IH].
    unfold returns in Helem.
    destruct (basetypes.isValidatable E).
    + destruct (Helem eq_refl Hfully) as [(av & ds & Hconv & Hval)|[err Hconv]].
      * rewrite Hconv, Hval. simpl.
        destruct (IH (basetypes.checkDuplicates p elemOuter inner (diags ++ ds)))
          as (out & Hrun & Hsub).
        exists out. split; [done|]. intros d Hd. apply Hsub.
        rewrite checkDuplicates_acc. apply elem_of_app. left.
        apply elem_of_app. by left.
      * rewrite Hconv. eexists. split; [done|]. intros d Hd.
        unfold diag.AddAttributeError. apply elem_of_app. by left.
    + destruct (IH (basetypes.checkDuplicates p elemOuter inner diags))
        as (out & Hrun & Hsub).
      exists out. split; [done|]. intros d Hd. apply Hsub.
      rewrite checkDuplicates_acc. apply elem_of_app. by left.
Qed.

Lemma validateSetElems_duplicate (E : option Type_) (p : Path)
    (pre inner : list V) (elemOuter elemInner : V) (diags : Diagnostics) :
  Forall (converts E p) pre -> converts E p elemOuter -> Forall (returns E p) inner ->
  tftypes.IsFullyKnown elemOuter = true ->
  elemInner ∈ inner -> tftypes.ValueEqual elemInner elemOuter = true ->
  exists out,
    basetypes.validateSetElems (basetypes.isValidatable E)
      (basetypes.elemValueFromTerraform E) (elemValidate E) p
      (pre ++ elemOuter :: inner) diags = Ok out /\
    duplicateDiagnostic p elemInner ∈ out.
Proof.
  intros Hpre Houter Hinner Hfully Hin Heq. revert diags.
  induction Hpre as [|x pre Hx _ IH]; intros diags; simpl.
  - rewrite Hfully. simpl. unfold converts in Houter.
    destruct (basetypes.isValidatable E) eqn:Hvalidatable.
    + destruct (Houter eq_refl Hfully) as (av & ds & Hconv & Hval).
      rewrite Hconv, Hval. simpl.
      destruct (validateSetElems_returns E p inner
                  (basetypes.checkDuplicates p elemOuter inner (diags ++ ds)) Hinner)
        as (out & Hrun & Hsub).
      rewrite Hvalidatable in Hrun.
      exists out. split; [done|]. apply Hsub. by apply checkDuplicates_elem_of.
    + destruct (validateSetElems_returns E p inner
                  (basetypes.checkDuplicates p elemOuter inner diags) Hinner)
        as (out & Hrun & Hsub).
      rewrite Hvalidatable in Hrun.
      exists out. split; [done|]. apply Hsub. by apply checkDuplicates_elem_of.
  - destruct (tftypes.IsFullyKnown x) eqn:Hxfully; simpl; [|apply IH].
    unfold converts in Hx.
    destruct (basetypes.isValidatable E) eqn:Hvalidatable.
    + destruct (Hx eq_refl Hxfully) as (av & ds & Hconv & Hval).
      rewrite Hconv, Hval. simpl. apply IH.
    + apply IH.
Qed.

(** C1, as amended.  In a set wire value that is looked into, let a
    fully known child be followed, at a later position, by a child equal
    to it.  When the element steps up to and including the first of the
    two go through, and those after it return, [SetType.Validate]
    returns diagnostics among which is an error "Duplicate Set Element"
    whose detail names the later child and whose path is the path of the
    set itself. *)
Theorem SetType_Validate_duplicate (E : option Type_) (inp : V) (p : Path)
    (pre mid post : list V) (elemOuter elemInner : V) :
  present tftypes.IsSet inp ->
  tftypes.AsSlice inp = Ok (pre ++ elemOuter :: mid ++ elemInner :: post) ->
  tftypes.IsFullyKnown elemOuter = true ->
  tftypes.ValueEqual elemInner elemOuter = true ->
  Forall (converts E p) (pre ++ [elemOuter]) ->
  Forall (returns E p) (mid ++ elemInner :: post) ->
  exists diags d,
    basetypes.Validate (attr.SetType E) inp p = Ok diags /\ d ∈ diags /\
    diag.severity d = diag.SeverityError /\
    diag.summary d = "Duplicate Set Element" /\
    diag.detail d
      = "This attribute contains duplicate values of: " +:+ tftypes.ValueString elemInner /\
    diag.attribute d = Some p.
Proof.
  intros Hpresent Helems Hfully Heq Hconv Hret.
  apply Forall_app in Hconv as [Hpre Houter].
  apply Forall_cons in Houter as [Houter _].
  destruct (validateSetElems_duplicate E p pre (mid ++ elemInner :: post)
              elemOuter elemInner [] Hpre Houter Hret Hfully) as (out & Hrun & Hin).
  { apply elem_of_app. right. by left. }
  { exact Heq. }
  exists out, (duplicateDiagnostic p elemInner).
  rewrite (SetType_Validate_present E inp p _ Hpresent Helems).
  by repeat split.
Qed.

End Duplicates.

(** In the set ["a"; "a"; "b"] of strings the second "a" is reported. *)
Lemma SetType_Validate_duplicate_witness :
  present tftypes.IsSet example.aabSet /\
  exists diags d,
    basetypes.Validate (attr.SetType (Some example.stringType))
      example.aabSet example.root = Ok diags /\ d ∈ diags /\
    diag.severity d = diag.SeverityError /\
    diag.summary d = "Duplicate Set Element" /\
    diag.detail d
      = "This attribute contains duplicate values of: "
          +:+ tftypes.ValueString (example.stringValue "a") /\
    diag.attribute d = Some example.root.
Proof.
  assert (Hpresent : present tftypes.IsSet example.aabSet).
  { exists (tftypes.Set_ (Some tftypes.String)). by repeat split. }
  split; [exact Hpresent|].
  apply (SetType_Validate_duplicate (Some example.stringType) example.aabSet example.root
           [] [] [example.stringValue "b"]
           (example.stringValue "a") (example.stringValue "a") Hpresent).
  - reflexivity.
  - reflexivity.
  - reflexivity.
  - constructor; [|constructor].
    intros Hvalidatable. discriminate Hvalidatable.
  - constructor; [|constructor; [|constructor]];
      intros Hvalidatable; discriminate Hvalidatable.
Defined.

(** C1, as the claim has it, fails: the one diagnostic of the set
    ["a"; "a"; "b"] has the path of the set, which is not a path to an
    element of the set.  The warnings of an element type's own
    validation do have the element's path. *)
Lemma SetType_Validate_duplicate_counterexample :
  basetypes.Validate (attr.SetType (Some example.stringType)) example.aabSet example.root
    = Ok [duplicateDiagnostic example.root (example.stringValue "a")] /\
  diag.attribute (duplicateDiagnostic example.root (example.stringValue "a"))
    = Some example.root /\
  (forall av : example.AttrValue,
     diag.attribute (duplicateDiagnostic example.root (example.stringValue "a"))
       <> Some (path.AtSetValue example.root av)) /\
  basetypes.Validate (attr.SetType (Some example.warningType)) example.aabSet example.root
    = Ok [example.warningAt "a";
          duplicateDiagnostic example.root (example.stringValue "a");
          example.warningAt "a";
          example.warningAt "b"].
Proof.
  split; [reflexivity|]. split; [reflexivity|]. split; [|reflexivity].
  intros av Hpath. discriminate Hpath.
Qed.

(** ** How often a value is reported *)

Section DuplicateCount.

Context {V O OV : Type} `{!tftypes.Value V} `{!ElementType V O OV}.

Abbreviation Type_ := (attr.Type_ O).
Abbreviation Path := (path.Path O OV).
Abbreviation Diagnostic := (diag.Diagnostic O OV).
Abbreviation Diagnostics := (diag.Diagnostics O OV).







End DuplicateCount.



(** * Further properties *)

(** ** Types: completeness, equality, wire type *)

Section TypeLaws.

Context {V O OV : Type} `{!tftypes.Value V} `{!ElementType V O OV}.

Abbreviation Type_ := (attr.Type_ O).

(** Induction on a type along its element types. *)
Lemma Type_induction (P : Type_ -> Prop) :
  P (attr.ListType None) -> (forall e, P e -> P (attr.ListType (Some e))) ->
  P (attr.MapType None) -> (forall e, P e -> P (attr.MapType (Some e))) ->
  P (attr.SetType None) -> (forall e, P e -> P (attr.SetType (Some e))) ->
  (forall o, P (attr.OtherType o)) ->
  forall t, P t.
Proof.
  intros HL0 HL HM0 HM HS0 HS HO.
  fix IH 1. intros [[e|]|[e|]|[e|]|o].
  - apply HL, IH.
  - exact HL0.
  - apply HM, IH.
  - exact HM0.
  - apply HS, IH.
  - exact HS0.
  - apply HO.
Qed.

Lemma TerraformType_complete (t : Type_) :
  if complete t then exists tt, basetypes.TerraformType t = Ok tt
  else basetypes.TerraformType t = Panic.
Proof.
  induction t as [|e IH| |e IH| |e IH|o] using Type_induction; simpl; eauto.
  all: destruct (complete e); [destruct IH as [tt ->]; simpl; eauto|by rewrite IH].
Qed.

Lemma String_complete (t : Type_) :
  if complete t then exists s, basetypes.String t = Ok s
  else basetypes.String t = Panic.
Proof.
  induction t as [|e IH| |e IH| |e IH|o] using Type_induction; simpl; eauto.
  all: destruct (complete e); [destruct IH as [tt ->]; simpl; eauto|by rewrite IH].
Qed.

(** X1.  [TerraformType] and [String] return on the same types: both
    return when no element type is missing anywhere inside the type, and
    both panic when one is. *)
Theorem TerraformType_String_return (t : Type_) :
  if complete t
  then (exists tt, basetypes.TerraformType t = Ok tt) /\
       (exists s, basetypes.String t = Ok s)
  else basetypes.TerraformType t = Panic /\ basetypes.String t = Panic.
Proof.
  pose proof (TerraformType_complete t) as HT.
  pose proof (String_complete t) as HS.
  by destruct (complete t).
Qed.

(** X2.  When every other element type equals itself, a type equals
    itself exactly when no element type is missing anywhere inside
    it. *)
Theorem Equal_reflexive_iff_complete (t : Type_) :
  reflexiveOther ->
  basetypes.Equal t (Some t) = true <-> complete t = true.
Proof.
  intros Hrefl.
  induction t as [|e IH| |e IH| |e IH|o] using Type_induction; simpl; try done.
  all: split; [done|]; intros _; apply Hrefl.
Qed.

(** X3.  When the equality of the other element types is symmetric,
    so is the equality of all types: what a type equals is not nil and
    equals the type back. *)
Theorem Equal_symmetric (t : Type_) (o : option Type_) :
  symmetricOther ->
  basetypes.Equal t o = true ->
  exists u, o = Some u /\ basetypes.Equal u (Some t) = true.
Proof.
  intros Hsym. revert o.
  induction t as [|e IH| |e IH| |e IH|x] using Type_induction; intros o Heq;
    simpl in Heq; try done.
  - destruct o as [[E2| | |]|]; try done.
    destruct (IH E2 Heq) as (u & -> & Hu). eauto.
  - destruct o as [[|E2| |]|]; try done.
    destruct (IH E2 Heq) as (u & -> & Hu). eauto.
  - destruct o as [[| |E2|]|]; try done.
    destruct (IH E2 Heq) as (u & -> & Hu). eauto.
  - destruct (Hsym x o Heq) as (x' & -> & Hx'). eauto.
Qed.


End TypeLaws.

(** The other element types of the examples keep the three laws. *)
Lemma example_reflexiveOther :
  reflexiveOther (V := example.wire) (O := example.other) (OV := example.otherValue).
Proof. by intros []. Qed.

Lemma example_symmetricOther :
  symmetricOther (V := example.wire) (O := example.other) (OV := example.otherValue).
Proof.
  intros o t Heq. destruct o, t as [[| | |[]]|]; try discriminate Heq.
  all: eexists; split; reflexivity.
Qed.


(** A list of sets of strings equals itself. *)
Lemma Equal_reflexive_iff_complete_witness :
  complete (attr.ListType (Some (attr.SetType (Some example.stringType)))) = true /\
  basetypes.Equal (attr.ListType (Some (attr.SetType (Some example.stringType))))
    (Some (attr.ListType (Some (attr.SetType (Some example.stringType))))) = true.
Proof.
  split; [reflexivity|].
  apply (Equal_reflexive_iff_complete
           (attr.ListType (Some (attr.SetType (Some example.stringType))))
           example_reflexiveOther).
  reflexivity.
Defined.

(** A map of strings and what it equals. *)
Lemma Equal_symmetric_witness :
  exists u,
    Some (attr.MapType (Some example.stringType)) = Some u /\
    basetypes.Equal u (Some (attr.MapType (Some example.stringType))) = true.
Proof.
  apply (Equal_symmetric (attr.MapType (Some example.stringType))
           (Some (attr.MapType (Some example.stringType))) example_symmetricOther).
  reflexivity.
Defined.


(** ** More on ValueFromTerraform *)

Section ConversionLaws.

Context {V O OV : Type} `{!tftypes.Value V} `{!ElementType V O OV}.

Abbreviation Type_ := (attr.Type_ O).
Abbreviation Value := (attr.Value O OV).

Lemma elemTerraformType_ok (E : option Type_) (wrap : option tftypes.Type_ -> tftypes.Type_)
    (tt : tftypes.Type_) :
  (et ← match E with None => Panic | Some e => basetypes.TerraformType e end;
   Ok (wrap (Some et))) = Ok tt ->
  exists et, match E with None => Panic | Some e => basetypes.TerraformType e end = Ok et /\
    tt = wrap (Some et).
Proof.
  destruct E as [e|]; [|done]. destruct (basetypes.TerraformType e); [|done..].
  intros [= <-]. eauto.
Qed.

(** X5.  A wire value that has a type other than the wire type of the
    collection type is refused with an error and no value, for each of
    the three shapes, and also when the wire value is unknown or null. *)
Theorem ValueFromTerraform_mismatch (E : option Type_) (inp : V) (ty tt : tftypes.Type_) :
  tftypes.Type' inp = Some ty -> tftypes.Equal ty tt = false ->
  (basetypes.TerraformType (attr.ListType E) = Ok tt ->
     exists err, basetypes.ValueFromTerraform (attr.ListType E) inp = Err err) /\
  (basetypes.TerraformType (attr.MapType E) = Ok tt ->
     exists err, basetypes.ValueFromTerraform (attr.MapType E) inp = Err err) /\
  (basetypes.TerraformType (attr.SetType E) = Ok tt ->
     exists err, basetypes.ValueFromTerraform (attr.SetType E) inp = Err err).
Proof.
  intros Hty Hne. split; [|split]; intros Htt.
  - cbn [basetypes.ValueFromTerraform]. rewrite Hty, Htt. cbn [mbind result_bind].
    rewrite Hne. cbn [negb].
    apply (elemTerraformType_ok E tftypes.List) in Htt as (et & -> & _). simpl. eauto.
  - cbn [basetypes.ValueFromTerraform]. rewrite Hty.
    destruct (tftypes.IsMap ty); cbn [negb]; [|eauto].
    apply (elemTerraformType_ok E tftypes.Map) in Htt as (et & -> & ->).
    cbn [mbind result_bind]. rewrite Hne. simpl. eauto.
  - cbn [basetypes.ValueFromTerraform]. rewrite Hty, Htt. cbn [mbind result_bind].
    rewrite Hne. cbn [negb].
    apply (elemTerraformType_ok E tftypes.Set_) in Htt as (et & -> & _). simpl. eauto.
Qed.

(** X6.  On a known, non-null set wire value of matching type with
    children [val]: when every child converts, the result is the Known
    set value of the converted children, in the order of [val] and with
    equal children kept (the conversion rejects no duplicate); when a
    child fails to convert after all the children before it converted,
    the result is that child's error. *)
Theorem SetType_ValueFromTerraform_order (e : Type_) (inp : V) (val : list V) :
  matches (attr.SetType (Some e)) inp ->
  tftypes.IsKnown inp = true -> tftypes.IsNull inp = false ->
  tftypes.AsSlice inp = Ok val ->
  (forall avs,
     Forall2 (fun elem av => basetypes.ValueFromTerraform e elem = Ok av) val avs ->
     basetypes.ValueFromTerraform (attr.SetType (Some e)) inp
       = Ok (attr.SetValue (Some e) avs attr.StateKnown)) /\
  (forall pre elem post avs err,
     val = pre ++ elem :: post ->
     Forall2 (fun elem av => basetypes.ValueFromTerraform e elem = Ok av) pre avs ->
     basetypes.ValueFromTerraform e elem = Err err ->
     basetypes.ValueFromTerraform (attr.SetType (Some e)) inp = Err err).
Proof.
  intros Hmatch Hknown Hnull Hval.
  rewrite (SetType_known (Some e) inp val Hmatch Hknown Hnull Hval).
  split.
  - intros avs Hconv.
    rewrite (convertElems_ok (basetypes.elemValueFromTerraform (Some e))
               val avs [] Hconv).
    reflexivity.
  - intros pre elem post avs err -> Hpre Helem.
    rewrite (convertElems_first_error (basetypes.elemValueFromTerraform (Some e))
               pre post elem avs [] err Hpre Helem).
    reflexivity.
Qed.

(** X7.  On a known, non-null map wire value of matching type whose
    values all convert, the result is a Known map with exactly the keys
    of the wire map, each key holding the conversion of the wire value
    under that key. *)
Theorem MapType_ValueFromTerraform_entries (E : option Type_) (inp : V)
    (val : gmap string V) :
  matches (attr.MapType E) inp ->
  tftypes.IsKnown inp = true -> tftypes.IsNull inp = false ->
  tftypes.AsMap inp = Ok val -> allConvert E val ->
  exists avs,
    basetypes.ValueFromTerraform (attr.MapType E) inp
      = Ok (attr.MapValue E avs attr.StateKnown) /\
    forall key,
      match val !! key with
      | Some elem => exists av,
          basetypes.elemValueFromTerraform E elem = Ok av /\ avs !! key = Some av
      | None => avs !! key = None
      end.
Proof.
  intros Hmatch Hknown Hnull Hval Hconv.
  rewrite (MapType_known E inp val Hmatch Hknown Hnull Hval).
  destruct (convertEntries_map (basetypes.elemValueFromTerraform E) val Hconv)
    as (avs & Hrun & Hdom & Hlook).
  exists avs. rewrite Hrun. split; [reflexivity|].
  intros key. destruct (val !! key) as [elem|] eqn:Hkey.
  - by apply Hlook.
  - apply not_elem_of_dom. rewrite Hdom. by apply not_elem_of_dom.
Qed.

Lemma convertEntries_error (conv : V -> result Value) (val : list (string * V))
    (elems : gmap string Value) :
  (forall key elem, (key, elem) ∈ val -> conv elem <> Panic) ->
  (exists key elem err, (key, elem) ∈ val /\ conv elem = Err err) ->
  exists key elem err,
    (key, elem) ∈ val /\ conv elem = Err err /\
    basetypes.convertEntries conv val elems = Err err.
Proof.
  revert elems. induction val as [|[k x] val IH]; intros elems Hsafe Hfail.
  - destruct Hfail as (key & elem & err & Hin & _). by apply elem_of_nil in Hin.
  - simpl. destruct (conv x) as [av|err|] eqn:Hx.
    + destruct (IH (<[k := av]> elems)) as (key & elem & err & Hin & Herr & Hrun).
      * intros key elem Hin. apply (Hsafe key elem). by right.
      * destruct Hfail as (key & elem & err & Hin & Herr).
        apply elem_of_cons in Hin as [[= -> ->]|Hin]; [congruence|eauto].
      * exists key, elem, err. split; [by right|done].
    + exists k, x, err. split; [by left|done].
    + exfalso. apply (Hsafe k x); [by left|done].
Qed.

(** X8.  On a known, non-null map wire value of matching type, when
    the conversion of some value returns an error and that of no value
    panics, the result is an error and no value, and the error is that
    of one of the values of the map. *)
Theorem MapType_ValueFromTerraform_error (E : option Type_) (inp : V)
    (val : gmap string V) :
  matches (attr.MapType E) inp ->
  tftypes.IsKnown inp = true -> tftypes.IsNull inp = false ->
  tftypes.AsMap inp = Ok val ->
  (forall key elem, val !! key = Some elem ->
     basetypes.elemValueFromTerraform E elem <> Panic) ->
  (exists key elem err, val !! key = Some elem /\
     basetypes.elemValueFromTerraform E elem = Err err) ->
  exists key elem err,
    val !! key = Some elem /\
    basetypes.elemValueFromTerraform E elem = Err err /\
    basetypes.ValueFromTerraform (attr.MapType E) inp = Err err.
Proof.
  intros Hmatch Hknown Hnull Hval Hsafe (key & elem & err & Hkey & Herr).
  rewrite (MapType_known E inp val Hmatch Hknown Hnull Hval).
  destruct (convertEntries_error (basetypes.elemValueFromTerraform E)
              (map_to_list val) ∅) as (k & x & e & Hin & Hx & Hrun).
  - intros k x Hin. apply (Hsafe k x). by apply elem_of_map_to_list.
  - exists key, elem, err. split; [by apply elem_of_map_to_list|done].
  - exists k, x, e. split; [by apply elem_of_map_to_list|].
    split; [done|]. by rewrite Hrun.
Qed.

(** X9.  With an element type missing somewhere inside the type, the
    conversion returns a Null value on a wire value without a type and
    panics on every wire value that has one; for a map type, a wire
    value that is not a map is refused with an error before that. *)
Theorem ValueFromTerraform_incomplete (E : option Type_) (inp : V) :
  complete (attr.ListType E) = false ->
  match tftypes.Type' inp with
  | None =>
      basetypes.ValueFromTerraform (attr.ListType E) inp = Ok (basetypes.NewListNull E) /\
      basetypes.ValueFromTerraform (attr.MapType E) inp = Ok (basetypes.NewMapNull E) /\
      basetypes.ValueFromTerraform (attr.SetType E) inp = Ok (basetypes.NewSetNull E)
  | Some ty =>
      basetypes.ValueFromTerraform (attr.ListType E) inp = Panic /\
      (if tftypes.IsMap ty
       then basetypes.ValueFromTerraform (attr.MapType E) inp = Panic
       else exists err, basetypes.ValueFromTerraform (attr.MapType E) inp = Err err) /\
      basetypes.ValueFromTerraform (attr.SetType E) inp = Panic
  end.
Proof.
  intros Hincomplete.
  assert (Helem : match E with None => Panic | Some e => basetypes.TerraformType e end
                  = Panic).
  { destruct E as [e|]; [|done].
    pose proof (TerraformType_complete e) as He. simpl in Hincomplete.
    by rewrite Hincomplete in He. }
  cbn [basetypes.ValueFromTerraform basetypes.TerraformType].
  destruct (tftypes.Type' inp) as [ty|]; [|done].
  rewrite Helem. split; [done|]. split; [|done].
  destruct (tftypes.IsMap ty); simpl; eauto.
Qed.

(** X10.  Whatever the wire value, a value returned by the conversion
    of a collection type is of the shape of the type and carries the
    element type of the type, and it has elements only when it is
    Known. *)
Theorem ValueFromTerraform_shape (E : option Type_) (inp : V) (v : Value) :
  (basetypes.ValueFromTerraform (attr.ListType E) inp = Ok v ->
     exists elements st, v = attr.ListValue E elements st /\
       (st = attr.StateKnown \/ elements = [])) /\
  (basetypes.ValueFromTerraform (attr.MapType E) inp = Ok v ->
     exists elements st, v = attr.MapValue E elements st /\
       (st = attr.StateKnown \/ elements = ∅)) /\
  (basetypes.ValueFromTerraform (attr.SetType E) inp = Ok v ->
     exists elements st, v = attr.SetValue E elements st /\
       (st = attr.StateKnown \/ elements = [])).
Proof.
  split; [|split]; cbn [basetypes.ValueFromTerraform]; unfold mbind, result_bind;
    intros Hv; repeat case_match; simplify_eq;
    unfold basetypes.NewListNull, basetypes.NewListUnknown, basetypes.NewListValueMust,
      basetypes.NewMapNull, basetypes.NewMapUnknown, basetypes.NewMapValueMust,
      basetypes.NewSetNull, basetypes.NewSetUnknown, basetypes.NewSetValueMust;
    eauto.
Qed.

End ConversionLaws.

(** ** More on Validate *)

Section ValidationLaws.

Context {V O OV : Type} `{!tftypes.Value V} `{!ElementType V O OV}.

Abbreviation Type_ := (attr.Type_ O).
Abbreviation Value := (attr.Value O OV).
Abbreviation Path := (path.Path O OV).
Abbreviation Diagnostic := (diag.Diagnostic O OV).
Abbreviation Diagnostics := (diag.Diagnostics O OV).

Lemma validateListElems_skip (validate : V -> Path -> result Diagnostics) (p : Path)
    (elems : list V) (index : nat) (diags : Diagnostics) :
  Forall (fun elem => tftypes.IsFullyKnown elem = false) elems ->
  basetypes.validateListElems validate p elems index diags = Ok diags.
Proof.
  intros Hskip. revert index.
  induction Hskip as [|elem rest Helem _ IH]; intros index; simpl; [done|].
  rewrite Helem. apply IH.
Qed.

Lemma validateMapElems_skip (validate : V -> Path -> result Diagnostics) (p : Path)
    (elems : list (string * V)) (diags : Diagnostics) :
  Forall (fun entry => tftypes.IsFullyKnown entry.2 = false) elems ->
  basetypes.validateMapElems validate p elems diags = Ok diags.
Proof.
  intros Hskip. induction Hskip as [|[key elem] rest Helem _ IH]; simpl; [done|].
  simpl in Helem. by rewrite Helem.
Qed.

Lemma validateSetElems_skip (validatable : bool) (conv : V -> result Value)
    (validate : V -> Path -> result Diagnostics) (p : Path)
    (elems : list V) (diags : Diagnostics) :
  Forall (fun elem => tftypes.IsFullyKnown elem = false) elems ->
  basetypes.validateSetElems validatable conv validate p elems diags = Ok diags.
Proof.
  intros Hskip. induction Hskip as [|elem rest Helem _ IH]; simpl; [done|].
  by rewrite Helem.
Qed.

(** X11.  Children that are not fully known are not looked at: the
    validation of a list, a map or a set none of whose children is fully
    known returns no diagnostics, whatever the element type and its
    validation, and whether or not the children are equal to each other.
    A list or a map whose element type has no validation returns no
    diagnostics either, whatever its children. *)
Theorem Validate_skips_children (E : option Type_) (inp : V) (p : Path) :
  (forall elems,
     present tftypes.IsList inp -> tftypes.AsSlice inp = Ok elems ->
     basetypes.isValidatable E = false \/
       Forall (fun elem => tftypes.IsFullyKnown elem = false) elems ->
     basetypes.Validate (attr.ListType E) inp p = Ok []) /\
  (forall elems,
     present tftypes.IsMap inp -> tftypes.AsMap inp = Ok elems ->
     basetypes.isValidatable E = false \/
       map_Forall (fun _ elem => tftypes.IsFullyKnown elem = false) elems ->
     basetypes.Validate (attr.MapType E) inp p = Ok []) /\
  (forall elems,
     present tftypes.IsSet inp -> tftypes.AsSlice inp = Ok elems ->
     Forall (fun elem => tftypes.IsFullyKnown elem = false) elems ->
     basetypes.Validate (attr.SetType E) inp p = Ok []).
Proof.
  split; [|split].
  - intros elems Hpresent Helems Hskip.
    rewrite (ListType_Validate_present E inp p elems Hpresent Helems).
    destruct Hskip as [->|Hskip]; [done|].
    destruct (basetypes.isValidatable E); [|done].
    by apply validateListElems_skip.
  - intros elems Hpresent Helems Hskip.
    rewrite (MapType_Validate_present E inp p elems Hpresent Helems).
    destruct Hskip as [->|Hskip]; [done|].
    destruct (basetypes.isValidatable E); [|done].
    apply validateMapElems_skip. apply Forall_forall. intros [key elem] Hin.
    apply elem_of_map_to_list in Hin. by apply (Hskip key elem).
  - intros elems Hpresent Helems Hskip.
    rewrite (SetType_Validate_present E inp p elems Hpresent Helems).
    by apply validateSetElems_skip.
Qed.

Lemma elem_of_duplicates (p : Path) (elems : list V) (d : Diagnostic) :
  d ∈ setDiagnostics (fun _ => []) p elems [] <->
  exists elemOuter elemInner,
    before elems elemOuter elemInner /\
    tftypes.IsFullyKnown elemOuter = true /\
    tftypes.ValueEqual elemInner elemOuter = true /\
    d = duplicateDiagnostic p elemInner.
Proof.
  induction elems as [|x inner IH]; cbn [setDiagnostics].
  - split; [intros Hd; by apply elem_of_nil in Hd|].
    intros (a & b & (pre & mid & post & Heq) & _). by destruct pre.
  - rewrite app_nil_r, elem_of_app, IH. split.
    + intros [Hd|(a & b & (pre & mid & post & ->) & Ha & Hb & ->)].
      * destruct (tftypes.IsFullyKnown x) eqn:Hx; [|by apply elem_of_nil in Hd].
        simpl in Hd. rewrite checkDuplicates_filter in Hd.
        apply list_elem_of_fmap in Hd as (b & -> & Hb).
        apply list_elem_of_filter in Hb as [Heq Hin].
        apply list_elem_of_split in Hin as (mid & post & ->).
        exists x, b. split; [by exists [], mid, post|done].
      * exists a, b. split; [by exists (x :: pre), mid, post|done].
    + intros (a & b & (pre & mid & post & Heq) & Ha & Hb & ->).
      destruct pre as [|y pre]; simpl in Heq; injection Heq as -> ->.
      * left. rewrite Ha. simpl. rewrite checkDuplicates_filter.
        apply list_elem_of_fmap. exists b. split; [done|].
        apply list_elem_of_filter. split; [done|].
        apply elem_of_app. right. by left.
      * right. exists a, b. split; [by exists pre, mid, post|done].
Qed.

(** X12.  When the element type has no validation, the diagnostics of
    a set that is looked into are exactly its duplicates: a diagnostic
    is in the result if and only if it is the duplicate-element error,
    at the path of the set, naming a child that stands after a fully
    known child and is equal to it.  A set without such a pair gets no
    diagnostics. *)
Theorem SetType_Validate_duplicates_exact (E : option Type_) (inp : V) (p : Path)
    (elems : list V) :
  present tftypes.IsSet inp -> tftypes.AsSlice inp = Ok elems ->
  basetypes.isValidatable E = false ->
  exists diags,
    basetypes.Validate (attr.SetType E) inp p = Ok diags /\
    (forall d, d ∈ diags <->
       exists elemOuter elemInner,
         before elems elemOuter elemInner /\
         tftypes.IsFullyKnown elemOuter = true /\
         tftypes.ValueEqual elemInner elemOuter = true /\
         d = duplicateDiagnostic p elemInner) /\
    ((forall elemOuter elemInner,
        before elems elemOuter elemInner ->
        tftypes.IsFullyKnown elemOuter = true ->
        tftypes.ValueEqual elemInner elemOuter = false) ->
     diags = []).
Proof.
  intros Hpresent Helems Hvalidatable.
  exists (setDiagnostics (fun _ => []) p elems []). split; [|split].
  - rewrite (SetType_Validate_present E inp p elems Hpresent Helems).
    rewrite <- (app_nil_r elems) at 1.
    rewrite (validateSetElems_prefix E p (fun _ => []) elems [] []); [done|].
    apply Forall_forall. intros x _ _. unfold validates. by rewrite Hvalidatable.
  - apply elem_of_duplicates.
  - intros Hnone.
    destruct (setDiagnostics (fun _ => []) p elems []) as [|d diags] eqn:Hdiags; [done|].
    assert (Hd : d ∈ setDiagnostics (fun _ : V => []) p elems []).
    { rewrite Hdiags. by left. }
    apply elem_of_duplicates in Hd as (a & b & Hbefore & Ha & Hb & _).
    rewrite (Hnone a b Hbefore Ha) in Hb. discriminate Hb.
Qed.

End ValidationLaws.

(** ** More on PlanResourceChangeRequest *)

Section PlanResourceChangeLaws.

Context {O OV DynamicValue Schema ResourceType TConfig TState TPlan : Type}.
Variable Config : option DynamicValue -> option Schema -> option TConfig * diag.Diagnostics O OV.
Variable State : option DynamicValue -> option Schema -> option TState * diag.Diagnostics O OV.
Variable Plan : option DynamicValue -> option Schema -> option TPlan * diag.Diagnostics O OV.
Variable ProviderMeta : option DynamicValue -> option Schema -> option TConfig * diag.Diagnostics O OV.

(** X13.  A framework request is returned exactly when the protocol
    request and the resource schema are both there.  With a protocol
    request and no resource schema, the result is no request and one
    error, "Missing Resource Schema", without a path, whatever the other
    arguments and the sibling conversions. *)
Theorem PlanResourceChangeRequest_returned
    (proto5 : option (tfprotov5.PlanResourceChangeRequest DynamicValue))
    (resourceType : ResourceType) (resourceSchema providerMetaSchema : option Schema) :
  ((fromproto5.PlanResourceChangeRequest Config State Plan ProviderMeta
      proto5 resourceType resourceSchema providerMetaSchema).1 = None
   <-> proto5 = None \/ resourceSchema = None) /\
  (forall proto, exists detail,
     fromproto5.PlanResourceChangeRequest Config State Plan ProviderMeta
       (Some proto) resourceType None providerMetaSchema
     = (None, [diag.NewErrorDiagnostic "Missing Resource Schema" detail])).
Proof.
  split.
  - unfold fromproto5.PlanResourceChangeRequest.
    destruct proto5 as [proto|]; [|by split; [left|]].
    destruct resourceSchema as [schema|]; [|by split; [right|]].
    destruct (Config _ _), (State _ _), (Plan _ _), (ProviderMeta _ _). simpl.
    split; [done|]. by intros [|].
  - intros proto. simpl. eauto.
Qed.

(** X14.  With a protocol request and a resource schema, the framework
    request carries that schema, the resource type and the prior private
    data of the protocol request; its config, prior state and proposed
    new state are those converted under the resource schema, and its
    provider meta the one converted under the provider meta schema.  The
    diagnostics returned are those of the four conversions, none lost
    and none added; they do not keep the request from being returned. *)
Theorem PlanResourceChangeRequest_assembled
    (proto5 : tfprotov5.PlanResourceChangeRequest DynamicValue)
    (resourceType : ResourceType) (schema : Schema) (providerMetaSchema : option Schema) :
  exists fw diags,
    fromproto5.PlanResourceChangeRequest Config State Plan ProviderMeta
      (Some proto5) resourceType (Some schema) providerMetaSchema = (Some fw, diags) /\
    fwserver.ResourceSchema _ _ _ _ _ fw = schema /\
    fwserver.ResourceType _ _ _ _ _ fw = resourceType /\
    fwserver.PriorPrivate _ _ _ _ _ fw = tfprotov5.PriorPrivate proto5 /\
    fwserver.Config _ _ _ _ _ fw = (Config (tfprotov5.Config proto5) (Some schema)).1 /\
    fwserver.PriorState _ _ _ _ _ fw
      = (State (tfprotov5.PriorState proto5) (Some schema)).1 /\
    fwserver.ProposedNewState _ _ _ _ _ fw
      = (Plan (tfprotov5.ProposedNewState proto5) (Some schema)).1 /\
    fwserver.ProviderMeta _ _ _ _ _ fw
      = (ProviderMeta (tfprotov5.ProviderMeta proto5) providerMetaSchema).1 /\
    forall d, d ∈ diags <->
      d ∈ (Config (tfprotov5.Config proto5) (Some schema)).2 \/
      d ∈ (State (tfprotov5.PriorState proto5) (Some schema)).2 \/
      d ∈ (Plan (tfprotov5.ProposedNewState proto5) (Some schema)).2 \/
      d ∈ (ProviderMeta (tfprotov5.ProviderMeta proto5) providerMetaSchema).2.
Proof.
  unfold fromproto5.PlanResourceChangeRequest.
  destruct (Config _ _) as [config configDiags],
    (State _ _) as [priorState priorStateDiags],
    (Plan _ _) as [proposedNewState proposedNewStateDiags],
    (ProviderMeta _ _) as [providerMeta providerMetaDiags].
  eexists _, _. split; [reflexivity|]. simpl. repeat split; try done.
  - rewrite !elem_of_app. intros [[[Hd|Hd]|Hd]|Hd]; auto.
  - rewrite !elem_of_app. intros [Hd|[Hd|[Hd|Hd]]]; auto.
Qed.

End PlanResourceChangeLaws.

(** ** The further properties on examples *)

(** A bool is no list of strings. *)
Lemma ValueFromTerraform_mismatch_witness :
  exists err,
    basetypes.ValueFromTerraform (attr.ListType (Some example.stringType))
      (example.boolValue true) = Err err.
Proof.
  destruct (ValueFromTerraform_mismatch (Some example.stringType)
              (example.boolValue true) tftypes.Bool
              (tftypes.List (Some tftypes.String))) as [Hlist _];
    [reflexivity..|].
  apply Hlist. reflexivity.
Defined.

(** The set ["a"; "a"; "b"] converts with its two "a". *)
Lemma SetType_ValueFromTerraform_order_witness :
  matches (attr.SetType (Some example.stringType)) example.aabSet /\
  basetypes.ValueFromTerraform (attr.SetType (Some example.stringType)) example.aabSet
    = Ok (attr.SetValue (Some example.stringType)
            [example.known "a"; example.known "a"; example.known "b"]
            attr.StateKnown).
Proof.
  assert (Hmatch : matches (attr.SetType (Some example.stringType)) example.aabSet).
  { exists (tftypes.Set_ (Some tftypes.String)), (tftypes.Set_ (Some tftypes.String)).
    repeat split; reflexivity. }
  split; [exact Hmatch|].
  apply (proj1 (SetType_ValueFromTerraform_order example.stringType example.aabSet
                  [example.stringValue "a"; example.stringValue "a"; example.stringValue "b"]
                  Hmatch eq_refl eq_refl eq_refl)).
  repeat constructor.
Defined.

Lemma xyMap_matches : matches (attr.MapType (Some example.stringType)) strict.xyMap.
Proof.
  exists (tftypes.Map (Some tftypes.String)), (tftypes.Map (Some tftypes.String)).
  repeat split; reflexivity.
Qed.

(** The map of "x" to "1" and "y" to "2" converts key by key. *)
Lemma MapType_ValueFromTerraform_entries_witness :
  exists avs,
    basetypes.ValueFromTerraform (attr.MapType (Some example.stringType)) strict.xyMap
      = Ok (attr.MapValue (Some example.stringType) avs attr.StateKnown) /\
    forall key,
      match (list_to_map [("x", example.stringValue "1"); ("y", example.stringValue "2")]
               : gmap string example.wire) !! key with
      | Some elem => exists av,
          basetypes.elemValueFromTerraform (Some example.stringType) elem = Ok av /\
          avs !! key = Some av
      | None => avs !! key = None
      end.
Proof.
  apply (MapType_ValueFromTerraform_entries (Some example.stringType) strict.xyMap
           (list_to_map [("x", example.stringValue "1"); ("y", example.stringValue "2")])
           xyMap_matches eq_refl eq_refl eq_refl).
  intros key elem Hkey. apply elem_of_list_to_map_2 in Hkey.
  repeat (apply elem_of_cons in Hkey as [[= -> ->]|Hkey]);
    [eexists; reflexivity..|by apply elem_of_nil in Hkey].
Defined.

(** A map with an empty string under "x" does not convert to a map of
    non-empty strings. *)
Lemma MapType_ValueFromTerraform_error_witness :
  exists key elem err,
    (list_to_map [("x", example.stringValue EmptyString); ("y", example.stringValue "a")]
       : gmap string example.wire) !! key = Some elem /\
    basetypes.elemValueFromTerraform (Some strict.nonEmptyStringType) elem = Err err /\
    basetypes.ValueFromTerraform (attr.MapType (Some strict.nonEmptyStringType))
      strict.emptyMap = Err err.
Proof.
  apply (MapType_ValueFromTerraform_error (Some strict.nonEmptyStringType) strict.emptyMap
           (list_to_map [("x", example.stringValue EmptyString);
                         ("y", example.stringValue "a")])).
  - exists (tftypes.Map (Some tftypes.String)), (tftypes.Map (Some tftypes.String)).
    repeat split; reflexivity.
  - reflexivity.
  - reflexivity.
  - reflexivity.
  - intros key elem Hkey. apply elem_of_list_to_map_2 in Hkey.
    repeat (apply elem_of_cons in Hkey as [[= -> ->]|Hkey]);
      [discriminate..|by apply elem_of_nil in Hkey].
  - exists "x", (example.stringValue EmptyString), "the string is empty".
    split; reflexivity.
Defined.

(** A list type without element type panics on a list of strings. *)
Lemma ValueFromTerraform_incomplete_witness :
  basetypes.ValueFromTerraform (attr.ListType None) example.abcList
    = (Panic : result example.AttrValue) /\
  (exists err,
     basetypes.ValueFromTerraform (attr.MapType None) example.abcList
       = (Err err : result example.AttrValue)) /\
  basetypes.ValueFromTerraform (attr.SetType None) example.abcList
    = (Panic : result example.AttrValue).
Proof.
  exact (ValueFromTerraform_incomplete (O := example.other) None example.abcList eq_refl).
Defined.

(** What the list ["a"; "b"; "c"] converts to is a list value. *)
Lemma ValueFromTerraform_shape_witness :
  exists elements st,
    attr.ListValue (Some example.stringType)
      [example.known "a"; example.known "b"; example.known "c"] attr.StateKnown
    = attr.ListValue (Some example.stringType) elements st /\
    (st = attr.StateKnown \/ elements = []).
Proof.
  apply (proj1 (ValueFromTerraform_shape (Some example.stringType) example.abcList
                  (attr.ListValue (Some example.stringType)
                     [example.known "a"; example.known "b"; example.known "c"]
                     attr.StateKnown))).
  reflexivity.
Defined.

(** A set of two unknown strings gets no diagnostics, under an element
    type that warns about every element it is shown. *)
Lemma Validate_skips_children_witness :
  present tftypes.IsSet strict.unknownPairSet /\
  tftypes.ValueEqual example.unknownString example.unknownString = true /\
  basetypes.Validate (attr.SetType (Some example.warningType))
    strict.unknownPairSet example.root = Ok [].
Proof.
  assert (Hpresent : present tftypes.IsSet strict.unknownPairSet).
  { exists (tftypes.Set_ (Some tftypes.String)). by repeat split. }
  split; [exact Hpresent|]. split; [reflexivity|].
  destruct (Validate_skips_children (Some example.warningType)
              strict.unknownPairSet example.root) as (_ & _ & Hset).
  apply (Hset [example.unknownString; example.unknownString] Hpresent eq_refl).
  repeat constructor.
Defined.

(** The diagnostics of the set ["a"; "a"; "b"] of strings. *)
Lemma SetType_Validate_duplicates_exact_witness :
  exists diags,
    basetypes.Validate (attr.SetType (Some example.stringType))
      example.aabSet example.root = Ok diags /\
    (forall d, d ∈ diags <->
       exists elemOuter elemInner,
         before [example.stringValue "a"; example.stringValue "a"; example.stringValue "b"]
           elemOuter elemInner /\
         tftypes.IsFullyKnown elemOuter = true /\
         tftypes.ValueEqual elemInner elemOuter = true /\
         d = duplicateDiagnostic example.root elemInner) /\
    ((forall elemOuter elemInner,
        before [example.stringValue "a"; example.stringValue "a"; example.stringValue "b"]
          elemOuter elemInner ->
        tftypes.IsFullyKnown elemOuter = true ->
        tftypes.ValueEqual elemInner elemOuter = false) ->
     diags = []).
Proof.
  apply (SetType_Validate_duplicates_exact (Some example.stringType) example.aabSet
           example.root).
  - exists (tftypes.Set_ (Some tftypes.String)). by repeat split.
  - reflexivity.
  - reflexivity.
Defined.

(** ** Equality is transitive *)

Section TypeTransitivity.

Context {V O OV : Type} `{!tftypes.Value V} `{!ElementType V O OV}.

Abbreviation Type_ := (attr.Type_ O).


End TypeTransitivity.


